(** * whitedwarf.py: the branch-extraction loop of [process_text_file]

    A shallow embedding of the line-filtering loop of
    [src/whitedwarf.py] (lines 365-409) and the properties of the
    record filter that follow from it.

    The text file is modelled as the text still to be read; the output
    file [branches_file] as the list of strings handed to [write], in
    the order of the calls.  The locals of [process_text_file] form the
    record [state]; one iteration of the [while line:] loop is [body]. *)

From Stdlib Require Import Strings.String Strings.Ascii Lists.List Bool.Bool
  Arith.PeanoNat Lia Sorting.Permutation.
Import ListNotations.
Local Open Scope string_scope.
Local Open Scope list_scope.

(** ** Strings as Python uses them *)

(** [line.startswith(p)] *)
Definition startswith (line p : string) : bool := String.prefix p line.

(** [sub in line]: substring containment. *)
Fixpoint contains (sub line : string) : bool :=
  String.prefix sub line
  || match line with
     | EmptyString => false
     | String _ rest => contains sub rest
     end.

Definition LF : ascii := "010"%char.

(** [file.readline()]: the line up to and including its terminator and
    the text left to read; the empty string at end of file.  The file is
    opened in text mode, so the text is the one Python hands out, every
    line terminator already a single newline character. *)
Fixpoint readline (file : string) : string * string :=
  match file with
  | EmptyString => (EmptyString, EmptyString)
  | String c rest =>
      if Ascii.eqb c LF then (String c EmptyString, rest)
      else let '(l, r) := readline rest in (String c l, r)
  end.

(** [file.readlines()]: all the lines of a text, terminators kept. *)
Fixpoint readlines (file : string) : list string :=
  match file with
  | EmptyString => []
  | String c rest =>
      if Ascii.eqb c LF then String c EmptyString :: readlines rest
      else match readlines rest with
           | [] => [String c EmptyString]
           | l :: ls => String c l :: ls
           end
  end.

(** ** The state of [process_text_file] *)

Record state : Type := mkState {
  OFF_COUNTY : bool;
  RECORD_FLAG : bool;
  LINES_LIST : list string;
  TOTAL_COMPANIES_FOUND : nat;
  TOTAL_COMPANIES_RECORDED : nat;
  NO_BRANCHES_FOUND : bool;
  branches_file : list string
}.

Definition initial : state :=
  {| OFF_COUNTY := false;
     RECORD_FLAG := false;
     LINES_LIST := [];
     TOTAL_COMPANIES_FOUND := 0;
     TOTAL_COMPANIES_RECORDED := 0;
     NO_BRANCHES_FOUND := true;
     branches_file := [] |}.

(** The five recognised prefixes. *)
Definition is_envelope (line : string) : bool :=
  startswith line "STARTS" || startswith line "ENDS".
Definition is_blockstart (line : string) : bool := startswith line "BLOCKSTARTS".
Definition is_countystart (line : string) : bool := startswith line "COUNTYSTARTS".
Definition is_countyend (line : string) : bool := startswith line "COUNTYENDS".

Section Engine.

(** The module-level constant [TARGET_COD_TOM] ("|3685|" in the script). *)
Variable TARGET_COD_TOM : string.

(** One iteration of the [while line:] loop (lines 383-408). *)
Definition body (line : string) (s : state) : state :=
  if startswith line "STARTS" || startswith line "ENDS" then
    {| OFF_COUNTY := OFF_COUNTY s;
       RECORD_FLAG := RECORD_FLAG s;
       LINES_LIST := LINES_LIST s;
       TOTAL_COMPANIES_FOUND := TOTAL_COMPANIES_FOUND s;
       TOTAL_COMPANIES_RECORDED := TOTAL_COMPANIES_RECORDED s;
       NO_BRANCHES_FOUND := NO_BRANCHES_FOUND s;
       branches_file := branches_file s ++ [line] |}
  else if startswith line "BLOCKSTARTS" then
    if negb (contains TARGET_COD_TOM line) then
      {| OFF_COUNTY := true;
         RECORD_FLAG := RECORD_FLAG s;
         LINES_LIST := LINES_LIST s ++ [line];
         TOTAL_COMPANIES_FOUND := TOTAL_COMPANIES_FOUND s + 1;
         TOTAL_COMPANIES_RECORDED := TOTAL_COMPANIES_RECORDED s;
         NO_BRANCHES_FOUND := NO_BRANCHES_FOUND s;
         branches_file := branches_file s |}
    else
      {| OFF_COUNTY := false;
         RECORD_FLAG := RECORD_FLAG s;
         LINES_LIST := LINES_LIST s;
         TOTAL_COMPANIES_FOUND := TOTAL_COMPANIES_FOUND s + 1;
         TOTAL_COMPANIES_RECORDED := TOTAL_COMPANIES_RECORDED s;
         NO_BRANCHES_FOUND := NO_BRANCHES_FOUND s;
         branches_file := branches_file s |}
  else if startswith line "COUNTYSTARTS" && OFF_COUNTY s then
    {| OFF_COUNTY := OFF_COUNTY s;
       RECORD_FLAG := if contains TARGET_COD_TOM line then true else RECORD_FLAG s;
       LINES_LIST := LINES_LIST s ++ [line];
       TOTAL_COMPANIES_FOUND := TOTAL_COMPANIES_FOUND s;
       TOTAL_COMPANIES_RECORDED := TOTAL_COMPANIES_RECORDED s;
       NO_BRANCHES_FOUND := NO_BRANCHES_FOUND s;
       branches_file := branches_file s |}
  else if startswith line "COUNTYENDS" && OFF_COUNTY s then
    let lines_list := LINES_LIST s ++ [line] in
    if RECORD_FLAG s then
      {| OFF_COUNTY := false;
         RECORD_FLAG := false;
         LINES_LIST := [];
         TOTAL_COMPANIES_FOUND := TOTAL_COMPANIES_FOUND s;
         TOTAL_COMPANIES_RECORDED := TOTAL_COMPANIES_RECORDED s + 1;
         NO_BRANCHES_FOUND := false;
         branches_file := branches_file s ++ lines_list |}
    else
      {| OFF_COUNTY := false;
         RECORD_FLAG := false;
         LINES_LIST := [];
         TOTAL_COMPANIES_FOUND := TOTAL_COMPANIES_FOUND s;
         TOTAL_COMPANIES_RECORDED := TOTAL_COMPANIES_RECORDED s;
         NO_BRANCHES_FOUND := NO_BRANCHES_FOUND s;
         branches_file := branches_file s |}
  else if OFF_COUNTY s then
    {| OFF_COUNTY := OFF_COUNTY s;
       RECORD_FLAG := RECORD_FLAG s;
       LINES_LIST := LINES_LIST s ++ [line];
       TOTAL_COMPANIES_FOUND := TOTAL_COMPANIES_FOUND s;
       TOTAL_COMPANIES_RECORDED := TOTAL_COMPANIES_RECORDED s;
       NO_BRANCHES_FOUND := NO_BRANCHES_FOUND s;
       branches_file := branches_file s |}
  else s.

(** The [while line:] loop (lines 382-409): [line] is the line just
    read, [file] the text not read yet.  The recursion is on a bound on
    the number of iterations; [None] means the bound was too small. *)
Fixpoint while_line (fuel : nat) (line file : string) (s : state) : option state :=
  match fuel with
  | 0 => None
  | S fuel' =>
      match line with
      | EmptyString => Some s
      | _ => let '(line', file') := readline file in
             while_line fuel' line' file' (body line s)
      end
  end.

(** [process_text_file] on the text of the input file: the locals after
    the loop, [branches_file] holding what was written.  Every iteration
    reads at least one character, so [length file + 1] iterations are
    enough. *)
Definition process_text_file (file : string) : option state :=
  let '(line, rest) := readline file in
  while_line (S (String.length file)) line rest initial.

(** The loop over the lines already split: the engine fed from a line
    iterator. *)
Definition run (lines : list string) (s : state) : state :=
  fold_left (fun st line => body line st) lines s.

Definition process_lines (lines : list string) : state := run lines initial.

End Engine.

Definition not_envelope (line : string) : bool := negb (is_envelope line).

(** [subseq l1 l2]: [l1] is [l2] with some elements left out, the others
    in the order they have in [l2]. *)
Inductive subseq {A : Type} : list A -> list A -> Prop :=
| subseq_nil : subseq [] []
| subseq_skip x l1 l2 : subseq l1 l2 -> subseq l1 (x :: l2)
| subseq_keep x l1 l2 : subseq l1 l2 -> subseq (x :: l1) (x :: l2).

(** The counter invariant: a block being scanned has been counted as
    seen and not yet as kept. *)
Definition counters_ok (s : state) : Prop :=
  TOTAL_COMPANIES_RECORDED s + (if OFF_COUNTY s then 1 else 0)
  <= TOTAL_COMPANIES_FOUND s.

(** The pending buffer holds no envelope marker. *)
Definition buffer_clean (s : state) : Prop :=
  Forall (fun l => is_envelope l = false) (LINES_LIST s).

(** A line of text with its terminator, and the texts of the scenarios. *)
Definition ln (s : string) : string := s ++ String LF EmptyString.

Definition scenario_kept : string :=
  ln "STARTS" ++ ln "BLOCKSTARTS|1111|" ++ ln "COUNTYSTARTS|3685|"
  ++ ln "data-row-A" ++ ln "COUNTYENDS" ++ ln "ENDS".

Definition scenario_ordinary : string :=
  ln "STARTS" ++ ln "data-row-A" ++ ln "ENDS".

Definition scenario_unterminated : string :=
  ln "BLOCKSTARTS|1111|" ++ ln "COUNTYSTARTS|3685|" ++ ln "BLOCKSTARTS|2222|".

Definition scenario_stale_kept : string :=
  ln "BLOCKSTARTS|1111|" ++ ln "data-of-1111" ++ ln "BLOCKSTARTS|2222|"
  ++ ln "COUNTYSTARTS|3685|" ++ ln "data-row-A" ++ ln "COUNTYENDS".

Definition scenario_leak : string :=
  ln "BLOCKSTARTS|1111|" ++ ln "COUNTYSTARTS|3685|" ++ ln "BLOCKSTARTS|2222|"
  ++ ln "COUNTYSTARTS|9999|" ++ ln "data-row-B" ++ ln "COUNTYENDS".

(** ** The loop body as a transition relation

    The seven ways one iteration of the loop can go, by the kind of the
    line and by [OFF_COUNTY]. *)

Inductive transition (T line : string) (s : state) : state -> Prop :=
| t_envelope :
    is_envelope line = true ->
    transition T line s
      {| OFF_COUNTY := OFF_COUNTY s;
         RECORD_FLAG := RECORD_FLAG s;
         LINES_LIST := LINES_LIST s;
         TOTAL_COMPANIES_FOUND := TOTAL_COMPANIES_FOUND s;
         TOTAL_COMPANIES_RECORDED := TOTAL_COMPANIES_RECORDED s;
         NO_BRANCHES_FOUND := NO_BRANCHES_FOUND s;
         branches_file := branches_file s ++ [line] |}
| t_block_scan :
    is_envelope line = false ->
    is_blockstart line = true ->
    contains T line = false ->
    transition T line s
      {| OFF_COUNTY := true;
         RECORD_FLAG := RECORD_FLAG s;
         LINES_LIST := LINES_LIST s ++ [line];
         TOTAL_COMPANIES_FOUND := TOTAL_COMPANIES_FOUND s + 1;
         TOTAL_COMPANIES_RECORDED := TOTAL_COMPANIES_RECORDED s;
         NO_BRANCHES_FOUND := NO_BRANCHES_FOUND s;
         branches_file := branches_file s |}
| t_block_home :
    is_envelope line = false ->
    is_blockstart line = true ->
    contains T line = true ->
    transition T line s
      {| OFF_COUNTY := false;
         RECORD_FLAG := RECORD_FLAG s;
         LINES_LIST := LINES_LIST s;
         TOTAL_COMPANIES_FOUND := TOTAL_COMPANIES_FOUND s + 1;
         TOTAL_COMPANIES_RECORDED := TOTAL_COMPANIES_RECORDED s;
         NO_BRANCHES_FOUND := NO_BRANCHES_FOUND s;
         branches_file := branches_file s |}
| t_county_start :
    is_envelope line = false ->
    is_blockstart line = false ->
    is_countystart line = true ->
    OFF_COUNTY s = true ->
    transition T line s
      {| OFF_COUNTY := true;
         RECORD_FLAG := RECORD_FLAG s || contains T line;
         LINES_LIST := LINES_LIST s ++ [line];
         TOTAL_COMPANIES_FOUND := TOTAL_COMPANIES_FOUND s;
         TOTAL_COMPANIES_RECORDED := TOTAL_COMPANIES_RECORDED s;
         NO_BRANCHES_FOUND := NO_BRANCHES_FOUND s;
         branches_file := branches_file s |}
| t_county_end :
    is_envelope line = false ->
    is_blockstart line = false ->
    is_countystart line = false ->
    is_countyend line = true ->
    OFF_COUNTY s = true ->
    transition T line s
      {| OFF_COUNTY := false;
         RECORD_FLAG := false;
         LINES_LIST := [];
         TOTAL_COMPANIES_FOUND := TOTAL_COMPANIES_FOUND s;
         TOTAL_COMPANIES_RECORDED :=
           TOTAL_COMPANIES_RECORDED s + (if RECORD_FLAG s then 1 else 0);
         NO_BRANCHES_FOUND := NO_BRANCHES_FOUND s && negb (RECORD_FLAG s);
         branches_file :=
           branches_file s
           ++ (if RECORD_FLAG s then LINES_LIST s ++ [line] else []) |}
| t_buffer :
    is_envelope line = false ->
    is_blockstart line = false ->
    is_countystart line = false ->
    is_countyend line = false ->
    OFF_COUNTY s = true ->
    transition T line s
      {| OFF_COUNTY := true;
         RECORD_FLAG := RECORD_FLAG s;
         LINES_LIST := LINES_LIST s ++ [line];
         TOTAL_COMPANIES_FOUND := TOTAL_COMPANIES_FOUND s;
         TOTAL_COMPANIES_RECORDED := TOTAL_COMPANIES_RECORDED s;
         NO_BRANCHES_FOUND := NO_BRANCHES_FOUND s;
         branches_file := branches_file s |}
| t_skip :
    is_envelope line = false ->
    is_blockstart line = false ->
    OFF_COUNTY s = false ->
    transition T line s s.

(** No block is being scanned and nothing is left over from one. *)
Definition idle (s : state) : Prop :=
  OFF_COUNTY s = false /\ RECORD_FLAG s = false /\ LINES_LIST s = [].

(** ** Well-formed company blocks

    A company block as the format intends it: the start line, ordinary
    lines, the first county sub-block (start line, ordinary lines, end
    line), then whatever follows up to the next company start. *)

Definition is_ordinary (line : string) : bool :=
  negb (is_envelope line) && negb (is_blockstart line)
  && negb (is_countystart line) && negb (is_countyend line).

Record block : Type := mkBlock {
  bstart : string;
  body1 : list string;
  cstart : string;
  body2 : list string;
  cend : string;
  trailing : list string
}.

Definition first_part (b : block) : list string :=
  bstart b :: body1 b ++ cstart b :: body2 b ++ [cend b].

Definition render (b : block) : list string := first_part b ++ trailing b.

Definition wf_block (b : block) : bool :=
  is_blockstart (bstart b)
  && forallb is_ordinary (body1 b)
  && is_countystart (cstart b)
  && forallb is_ordinary (body2 b)
  && is_countyend (cend b)
  && forallb (fun l => negb (is_blockstart l)) (trailing b).

(** The block is of another county and its first sub-block is of the
    target county. *)
Definition keeps (T : string) (b : block) : bool :=
  negb (contains T (bstart b)) && contains T (cstart b).

Definition emitted (T : string) (b : block) : list string :=
  (if keeps T b then first_part b else [])
  ++ filter is_envelope (trailing b).

(** A line that is not the start line of a company of the target
    county. *)
Definition off_county_line (T line : string) : bool :=
  negb (is_blockstart line && contains T line).

(** What is written and what is buffered can be filtered again: from
    any idle state, the output so far is reproduced as it is, and the
    buffer so far is buffered again with the same flag. *)
Definition replayable (T : string) (s : state) : Prop :=
  (OFF_COUNTY s = true -> LINES_LIST s <> [])
  /\ (forall t0, idle t0 ->
        idle (run T (branches_file s) t0)
        /\ branches_file (run T (branches_file s) t0)
           = branches_file t0 ++ branches_file s
        /\ TOTAL_COMPANIES_RECORDED (run T (branches_file s) t0)
           = TOTAL_COMPANIES_RECORDED t0 + TOTAL_COMPANIES_RECORDED s)
  /\ (forall t1, idle t1 ->
        branches_file (run T (LINES_LIST s) t1) = branches_file t1
        /\ LINES_LIST (run T (LINES_LIST s) t1) = LINES_LIST s
        /\ RECORD_FLAG (run T (LINES_LIST s) t1) = RECORD_FLAG s
        /\ TOTAL_COMPANIES_RECORDED (run T (LINES_LIST s) t1)
           = TOTAL_COMPANIES_RECORDED t1
        /\ (LINES_LIST s <> [] -> OFF_COUNTY (run T (LINES_LIST s) t1) = true)).

(** ** [load_arguments] (lines 212-258)

    The five option flags are module-level globals; [load_arguments]
    scans [sys.argv] (script name included) and sets them.  What it
    prints is left out. *)

Record config : Type := mkConfig {
  VERBOSE_MESSAGING : bool;
  DELETE_EMPTY_BRANCHES_FILES : bool;
  DELETE_TMP_FILES_AFTER_PROCESS : bool;
  PRINT_REPORT : bool;
  LONG_RUN : bool
}.

(** The values the module gives the flags (lines 180-184); also what
    [load_arguments] falls back to when no option is found. *)
Definition standard_config : config :=
  {| VERBOSE_MESSAGING := false;
     DELETE_EMPTY_BRANCHES_FILES := false;
     DELETE_TMP_FILES_AFTER_PROCESS := false;
     PRINT_REPORT := false;
     LONG_RUN := false |}.

(** What the [-LR] branch assigns. *)
Definition long_run_config : config :=
  {| VERBOSE_MESSAGING := false;
     DELETE_EMPTY_BRANCHES_FILES := true;
     DELETE_TMP_FILES_AFTER_PROCESS := true;
     PRINT_REPORT := true;
     LONG_RUN := true |}.

(** The [for arg in sys.argv] loop, with its [break] at [-LR]; the
    second component is [ARGUMENTS_FOUND]. *)
Fixpoint for_arg (argv : list string) (c : config) (ARGUMENTS_FOUND : bool)
  : config * bool :=
  match argv with
  | [] => (c, ARGUMENTS_FOUND)
  | arg :: rest =>
      if arg =? "-vm" then
        for_arg rest
          {| VERBOSE_MESSAGING := true;
             DELETE_EMPTY_BRANCHES_FILES := DELETE_EMPTY_BRANCHES_FILES c;
             DELETE_TMP_FILES_AFTER_PROCESS := DELETE_TMP_FILES_AFTER_PROCESS c;
             PRINT_REPORT := PRINT_REPORT c;
             LONG_RUN := LONG_RUN c |} true
      else if arg =? "-deb" then
        for_arg rest
          {| VERBOSE_MESSAGING := VERBOSE_MESSAGING c;
             DELETE_EMPTY_BRANCHES_FILES := true;
             DELETE_TMP_FILES_AFTER_PROCESS := DELETE_TMP_FILES_AFTER_PROCESS c;
             PRINT_REPORT := PRINT_REPORT c;
             LONG_RUN := LONG_RUN c |} true
      else if arg =? "-dtmp" then
        for_arg rest
          {| VERBOSE_MESSAGING := VERBOSE_MESSAGING c;
             DELETE_EMPTY_BRANCHES_FILES := DELETE_EMPTY_BRANCHES_FILES c;
             DELETE_TMP_FILES_AFTER_PROCESS := true;
             PRINT_REPORT := PRINT_REPORT c;
             LONG_RUN := LONG_RUN c |} true
      else if arg =? "-pr" then
        for_arg rest
          {| VERBOSE_MESSAGING := VERBOSE_MESSAGING c;
             DELETE_EMPTY_BRANCHES_FILES := DELETE_EMPTY_BRANCHES_FILES c;
             DELETE_TMP_FILES_AFTER_PROCESS := DELETE_TMP_FILES_AFTER_PROCESS c;
             PRINT_REPORT := true;
             LONG_RUN := LONG_RUN c |} true
      else if arg =? "-LR" then
        ({| VERBOSE_MESSAGING := false;
            DELETE_EMPTY_BRANCHES_FILES := true;
            DELETE_TMP_FILES_AFTER_PROCESS := true;
            PRINT_REPORT := true;
            LONG_RUN := true |}, true)
      else for_arg rest c ARGUMENTS_FOUND
  end.

Definition load_arguments (argv : list string) (c : config) : config :=
  let '(c', ARGUMENTS_FOUND) := for_arg argv c false in
  if negb ARGUMENTS_FOUND then
    {| VERBOSE_MESSAGING := false;
       DELETE_EMPTY_BRANCHES_FILES := false;
       DELETE_TMP_FILES_AFTER_PROCESS := false;
       PRINT_REPORT := false;
       LONG_RUN := false |}
  else c'.

(** [x in argv] *)
Definition has_arg (x : string) (argv : list string) : bool :=
  existsb (fun arg => arg =? x) argv.

(** One of the four options other than [-LR] occurs. *)
Definition any_option (argv : list string) : bool :=
  has_arg "-vm" argv || has_arg "-deb" argv || has_arg "-dtmp" argv
  || has_arg "-pr" argv.

(** ** [long_run_loop] (lines 438-454)

    The three globals the function owns, and the number of times it has
    printed [MSG_LONG_RUN_ALERT]. *)

Record long_run_state : Type := mkLongRun {
  LONG_RUN_ALERT_COUNT : nat;
  TOTAL_ERRORS_FOUND_LONG_RUN : nat;
  ERRORS_LIST_LONG_RUN : list string;
  alerts_printed : nat
}.

(** The alert counter (lines 442-445): every fiftieth call prints
    [MSG_LONG_RUN_ALERT] and starts the count again. *)
Definition alert_tick (g : long_run_state) : long_run_state :=
  let count := LONG_RUN_ALERT_COUNT g + 1 in
  if (50 <=? count)%nat then
    {| LONG_RUN_ALERT_COUNT := 0;
       TOTAL_ERRORS_FOUND_LONG_RUN := TOTAL_ERRORS_FOUND_LONG_RUN g;
       ERRORS_LIST_LONG_RUN := ERRORS_LIST_LONG_RUN g;
       alerts_printed := alerts_printed g + 1 |}
  else
    {| LONG_RUN_ALERT_COUNT := count;
       TOTAL_ERRORS_FOUND_LONG_RUN := TOTAL_ERRORS_FOUND_LONG_RUN g;
       ERRORS_LIST_LONG_RUN := ERRORS_LIST_LONG_RUN g;
       alerts_printed := alerts_printed g |}.

(** The bookkeeping of the [except] branch (lines 451-452). *)
Definition record_error (error : string) (g : long_run_state) : long_run_state :=
  {| LONG_RUN_ALERT_COUNT := LONG_RUN_ALERT_COUNT g;
     TOTAL_ERRORS_FOUND_LONG_RUN := TOTAL_ERRORS_FOUND_LONG_RUN g + 1;
     ERRORS_LIST_LONG_RUN := ERRORS_LIST_LONG_RUN g ++ [error];
     alerts_printed := alerts_printed g |}.

Section LongRun.

(** [attempt] stands for the body of the [try]: [download_extract_file]
    followed by [process_file].  [world] is all they read and change
    (database, file system, the other globals); they do not touch the
    globals of [long_run_state].  The result is [None] when they return
    and [Some (str error)] when they raise an [Exception]. *)
Variable file_id : Type.
Variable world : Type.
Variable attempt : file_id -> world -> world * option string.

(** The recursion bound is the depth of the recursive retries; [None]
    means the bound was reached. *)
Fixpoint long_run_loop (fuel : nat) (id : file_id) (g : long_run_state) (w : world)
  : option (long_run_state * world) :=
  match fuel with
  | 0 => None
  | S fuel' =>
      let g1 := alert_tick g in
      match attempt id w with
      | (w', None) => Some (g1, w')
      | (w', Some error) => long_run_loop fuel' id (record_error error g1) w'
      end
  end.

(** The loop of [main] in long-run mode (lines 494-495). *)
Fixpoint long_run_all (fuel : nat) (ids_list : list file_id)
  (g : long_run_state) (w : world) : option (long_run_state * world) :=
  match ids_list with
  | [] => Some (g, w)
  | id :: rest =>
      match long_run_loop fuel id g w with
      | None => None
      | Some (g', w') => long_run_all fuel rest g' w'
      end
  end.

(** [tries id w errors w']: from [w], the attempts on [id] fail with the
    messages [errors], in this order, and the next one succeeds, leaving
    [w']. *)
Inductive tries (id : file_id) : world -> list string -> world -> Prop :=
| tries_done w w' :
    attempt id w = (w', None) -> tries id w [] w'
| tries_again w w1 error errors w' :
    attempt id w = (w1, Some error) ->
    tries id w1 errors w' ->
    tries id w (error :: errors) w'.

End LongRun.

(** The values the module gives the long-run globals (lines 188-194). *)
Definition module_long_run : long_run_state :=
  {| LONG_RUN_ALERT_COUNT := 0;
     TOTAL_ERRORS_FOUND_LONG_RUN := 0;
     ERRORS_LIST_LONG_RUN := [];
     alerts_printed := 0 |}.

(** An attempt for the examples: the world is the number of failures
    still to come. *)
Definition flaky (id : nat) (w : nat) : nat * option string :=
  match w with
  | 0 => (0, None)
  | S w' => (w', Some "connection lost")
  end.

(** ** File names (lines 377-379, 412-413) *)

Definition has_slash (p : string) : bool :=
  existsb (fun c => Ascii.eqb c "/") (list_ascii_of_string p).

(** [os.path.basename] of [posixpath]: what follows the last slash. *)
Fixpoint basename (p : string) : string :=
  match p with
  | EmptyString => EmptyString
  | String c rest =>
      if has_slash rest then basename rest
      else if Ascii.eqb c "/" then rest
      else String c rest
  end.

Definition EXTRACTION_LOCAL : string := "filiais/".
Definition PROCESSED_FILES_PREFIX : string := "filiais_".

(** The name under which [process_text_file] opens [branches_file]. *)
Definition branches_file_name (target_file_name : string) : string :=
  EXTRACTION_LOCAL ++ PROCESSED_FILES_PREFIX ++ basename target_file_name.

(** Three blocks for the examples: one kept, one of the target county,
    one whose first sub-block is of another county and whose second
    sub-block, left in [trailing] with the end marker, is not looked at. *)
Definition block_kept : block :=
  {| bstart := ln "BLOCKSTARTS|1111|";
     body1 := [ln "data-row-0"];
     cstart := ln "COUNTYSTARTS|3685|";
     body2 := [ln "data-row-A"];
     cend := ln "COUNTYENDS";
     trailing := [] |}.

Definition block_home : block :=
  {| bstart := ln "BLOCKSTARTS|3685|";
     body1 := [];
     cstart := ln "COUNTYSTARTS|3685|";
     body2 := [ln "data-row-B"];
     cend := ln "COUNTYENDS";
     trailing := [] |}.

Definition block_other : block :=
  {| bstart := ln "BLOCKSTARTS|2222|";
     body1 := [];
     cstart := ln "COUNTYSTARTS|9999|";
     body2 := [ln "data-row-C"];
     cend := ln "COUNTYENDS";
     trailing := [ln "COUNTYSTARTS|3685|"; ln "data-row-D"; ln "COUNTYENDS";
                  ln "ENDS"] |}.

(** ** The recognised prefixes exclude one another *)

Ltac first_char line H :=
  destruct line as [|? ?]; [discriminate H|];
  cbn in H;
  match type of H with
  | (if ?d then _ else _) = true => destruct d; [subst|discriminate H]
  end.

Lemma blockstart_not_envelope line :
  is_blockstart line = true -> is_envelope line = false.
Proof.
  unfold is_blockstart, is_envelope, startswith. intros H.
  first_char line H. reflexivity.
Qed.

Lemma countystart_not_envelope line :
  is_countystart line = true -> is_envelope line = false.
Proof.
  unfold is_countystart, is_envelope, startswith. intros H.
  first_char line H. reflexivity.
Qed.

Lemma countyend_not_envelope line :
  is_countyend line = true -> is_envelope line = false.
Proof.
  unfold is_countyend, is_envelope, startswith. intros H.
  first_char line H. reflexivity.
Qed.

Lemma countystart_not_blockstart line :
  is_countystart line = true -> is_blockstart line = false.
Proof.
  unfold is_countystart, is_blockstart, startswith. intros H.
  first_char line H. reflexivity.
Qed.

Lemma countyend_not_blockstart line :
  is_countyend line = true -> is_blockstart line = false.
Proof.
  unfold is_countyend, is_blockstart, startswith. intros H.
  first_char line H. reflexivity.
Qed.

Lemma prefix_cons c p line :
  String.prefix (String c p) (String c line) = String.prefix p line.
Proof. cbn. destruct (ascii_dec c c); [reflexivity|congruence]. Qed.

Lemma countyend_not_countystart line :
  is_countyend line = true -> is_countystart line = false.
Proof.
  unfold is_countyend, is_countystart, startswith. intros H.
  do 6 (first_char line H; rewrite prefix_cons).
  first_char line H. reflexivity.
Qed.

(** ** Reading lines *)

Lemma readline_readlines file :
  file <> EmptyString ->
  fst (readline file) <> EmptyString
  /\ readlines file = fst (readline file) :: readlines (snd (readline file))
  /\ String.length (snd (readline file)) < String.length file.
Proof.
  induction file as [|c rest IH]; intros Hne; [congruence|].
  cbn [readline readlines]. destruct (Ascii.eqb c LF).
  - cbn. repeat split; [discriminate | lia].
  - destruct rest as [|c' rest'].
    + cbn. repeat split; [discriminate | lia].
    + destruct IH as (_ & Hl & Hlen); [discriminate|].
      rewrite Hl. destruct (readline (String c' rest')) as [l r].
      cbn in *. repeat split; [discriminate | lia].
Qed.

Lemma readlines_nonempty file :
  Forall (fun line => line <> EmptyString) (readlines file).
Proof.
  induction file as [|c rest IH]; cbn [readlines]; [constructor|].
  destruct (Ascii.eqb c LF).
  - constructor; [discriminate | exact IH].
  - destruct (readlines rest) as [|l ls].
    + constructor; [discriminate | constructor].
    + inversion IH; subst. constructor; [discriminate | assumption].
Qed.

Section EngineFacts.

Variable T : string.

Lemma run_app l1 l2 s : run T (l1 ++ l2) s = run T l2 (run T l1 s).
Proof. unfold run. apply fold_left_app. Qed.

Lemma run_cons l ls s : run T (l :: ls) s = run T ls (body T l s).
Proof. reflexivity. Qed.

(** Enough iterations: the loop ends and has run [body] on every line. *)
Lemma while_line_run fuel : forall line file s,
  line <> EmptyString ->
  String.length file + 1 < fuel ->
  while_line T fuel line file s = Some (run T (readlines file) (body T line s)).
Proof.
  induction fuel as [|fuel IH]; intros line file s Hne Hfuel; [lia|].
  cbn [while_line]. destruct line as [|c line]; [congruence|].
  destruct file as [|c' file'].
  - cbn. destruct fuel; [cbn in Hfuel; lia | reflexivity].
  - destruct (readline_readlines (String c' file')) as (Hl & Hls & Hlen);
      [discriminate|].
    rewrite Hls. destruct (readline (String c' file')) as [l r].
    cbn [fst snd] in *. rewrite IH by (assumption || lia).
    reflexivity.
Qed.

(** [process_text_file] terminates on every text, and its final state is
    that of the loop body folded over the lines of the text. *)
Lemma process_text_file_run file :
  process_text_file T file = Some (process_lines T (readlines file)).
Proof.
  unfold process_text_file, process_lines.
  destruct file as [|c file'].
  - reflexivity.
  - destruct (readline_readlines (String c file')) as (Hl & Hls & Hlen);
      [discriminate|].
    rewrite Hls. destruct (readline (String c file')) as [l r].
    cbn [fst snd] in *. rewrite while_line_run by (assumption || lia).
    reflexivity.
Qed.

(** *** What [body] does on each kind of line *)

Lemma body_envelope line s :
  is_envelope line = true ->
  body T line s =
    {| OFF_COUNTY := OFF_COUNTY s;
       RECORD_FLAG := RECORD_FLAG s;
       LINES_LIST := LINES_LIST s;
       TOTAL_COMPANIES_FOUND := TOTAL_COMPANIES_FOUND s;
       TOTAL_COMPANIES_RECORDED := TOTAL_COMPANIES_RECORDED s;
       NO_BRANCHES_FOUND := NO_BRANCHES_FOUND s;
       branches_file := branches_file s ++ [line] |}.
Proof. unfold is_envelope, body. intros ->. reflexivity. Qed.

Lemma body_blockstart_scan line s :
  is_blockstart line = true ->
  contains T line = false ->
  body T line s =
    {| OFF_COUNTY := true;
       RECORD_FLAG := RECORD_FLAG s;
       LINES_LIST := LINES_LIST s ++ [line];
       TOTAL_COMPANIES_FOUND := TOTAL_COMPANIES_FOUND s + 1;
       TOTAL_COMPANIES_RECORDED := TOTAL_COMPANIES_RECORDED s;
       NO_BRANCHES_FOUND := NO_BRANCHES_FOUND s;
       branches_file := branches_file s |}.
Proof.
  intros Hb Hc. pose proof (blockstart_not_envelope _ Hb) as He.
  unfold is_envelope, is_blockstart, body in *. rewrite He, Hb, Hc.
  reflexivity.
Qed.

Lemma body_blockstart_home line s :
  is_blockstart line = true ->
  contains T line = true ->
  body T line s =
    {| OFF_COUNTY := false;
       RECORD_FLAG := RECORD_FLAG s;
       LINES_LIST := LINES_LIST s;
       TOTAL_COMPANIES_FOUND := TOTAL_COMPANIES_FOUND s + 1;
       TOTAL_COMPANIES_RECORDED := TOTAL_COMPANIES_RECORDED s;
       NO_BRANCHES_FOUND := NO_BRANCHES_FOUND s;
       branches_file := branches_file s |}.
Proof.
  intros Hb Hc. pose proof (blockstart_not_envelope _ Hb) as He.
  unfold is_envelope, is_blockstart, body in *. rewrite He, Hb, Hc.
  reflexivity.
Qed.

Lemma body_countystart_scan line s :
  is_countystart line = true ->
  OFF_COUNTY s = true ->
  body T line s =
    {| OFF_COUNTY := true;
       RECORD_FLAG := RECORD_FLAG s || contains T line;
       LINES_LIST := LINES_LIST s ++ [line];
       TOTAL_COMPANIES_FOUND := TOTAL_COMPANIES_FOUND s;
       TOTAL_COMPANIES_RECORDED := TOTAL_COMPANIES_RECORDED s;
       NO_BRANCHES_FOUND := NO_BRANCHES_FOUND s;
       branches_file := branches_file s |}.
Proof.
  intros Hc Ho. pose proof (countystart_not_envelope _ Hc) as He.
  pose proof (countystart_not_blockstart _ Hc) as Hb.
  unfold is_envelope, is_blockstart, is_countystart, body in *.
  rewrite He, Hb, Hc, Ho. cbn.
  destruct (contains T line), (RECORD_FLAG s); reflexivity.
Qed.

Lemma body_countyend_scan line s :
  is_countyend line = true ->
  OFF_COUNTY s = true ->
  body T line s =
    {| OFF_COUNTY := false;
       RECORD_FLAG := false;
       LINES_LIST := [];
       TOTAL_COMPANIES_FOUND := TOTAL_COMPANIES_FOUND s;
       TOTAL_COMPANIES_RECORDED :=
         TOTAL_COMPANIES_RECORDED s + (if RECORD_FLAG s then 1 else 0);
       NO_BRANCHES_FOUND := NO_BRANCHES_FOUND s && negb (RECORD_FLAG s);
       branches_file :=
         branches_file s ++ (if RECORD_FLAG s then LINES_LIST s ++ [line] else []) |}.
Proof.
  intros Hc Ho. pose proof (countyend_not_envelope _ Hc) as He.
  pose proof (countyend_not_blockstart _ Hc) as Hb.
  pose proof (countyend_not_countystart _ Hc) as Hs.
  unfold is_envelope, is_blockstart, is_countystart, is_countyend, body in *.
  rewrite He, Hb, Hc, Hs, Ho. cbn.
  destruct (RECORD_FLAG s); cbn.
  - rewrite andb_false_r. reflexivity.
  - rewrite Nat.add_0_r, app_nil_r, andb_true_r. reflexivity.
Qed.

Lemma body_ordinary_scan line s :
  is_envelope line = false ->
  is_blockstart line = false ->
  is_countystart line = false ->
  is_countyend line = false ->
  OFF_COUNTY s = true ->
  body T line s =
    {| OFF_COUNTY := true;
       RECORD_FLAG := RECORD_FLAG s;
       LINES_LIST := LINES_LIST s ++ [line];
       TOTAL_COMPANIES_FOUND := TOTAL_COMPANIES_FOUND s;
       TOTAL_COMPANIES_RECORDED := TOTAL_COMPANIES_RECORDED s;
       NO_BRANCHES_FOUND := NO_BRANCHES_FOUND s;
       branches_file := branches_file s |}.
Proof.
  unfold is_envelope, is_blockstart, is_countystart, is_countyend, body.
  intros -> -> -> -> Ho. rewrite Ho. reflexivity.
Qed.

(** Outside a scanned block every line that is neither an envelope
    marker nor a company start leaves the state as it is. *)
Lemma body_idle line s :
  is_envelope line = false ->
  is_blockstart line = false ->
  OFF_COUNTY s = false ->
  body T line s = s.
Proof.
  unfold is_envelope, is_blockstart, body.
  intros -> -> Ho. rewrite Ho, !andb_false_r. reflexivity.
Qed.

End EngineFacts.

(** ** Subsequences *)

Lemma subseq_refl {A} (l : list A) : subseq l l.
Proof. induction l; constructor; assumption. Qed.

Lemma subseq_nil_l {A} (l : list A) : subseq [] l.
Proof. induction l; constructor; assumption. Qed.

Lemma subseq_app {A} (l1 l1' l2 l2' : list A) :
  subseq l1 l1' -> subseq l2 l2' -> subseq (l1 ++ l2) (l1' ++ l2').
Proof.
  intros H1 H2. induction H1; cbn; try constructor; assumption.
Qed.

Lemma subseq_trans {A} (l1 l2 l3 : list A) :
  subseq l1 l2 -> subseq l2 l3 -> subseq l1 l3.
Proof.
  intros H12 H23. revert l1 H12.
  induction H23 as [|x l2 l3 H IH|x l2 l3 H IH]; intros l1 H12.
  - exact H12.
  - constructor. apply IH, H12.
  - inversion H12; subst.
    + apply subseq_skip, IH. assumption.
    + apply subseq_keep, IH. assumption.
Qed.

Lemma subseq_app_l {A} (l1 l2 : list A) : subseq l1 (l1 ++ l2).
Proof.
  rewrite <- (app_nil_r l1) at 1.
  apply subseq_app; [apply subseq_refl | apply subseq_nil_l].
Qed.

Lemma subseq_filter {A} (f : A -> bool) (l : list A) : subseq (filter f l) l.
Proof.
  induction l as [|x l IH]; cbn; [constructor|].
  destruct (f x); constructor; assumption.
Qed.

(** ** Runs of lines *)

Section Segments.

Variable T : string.

(** While no block is being scanned and no company start arrives, only
    envelope markers reach the output. *)
Lemma run_idle lines : forall s,
  OFF_COUNTY s = false ->
  Forall (fun l => is_blockstart l = false) lines ->
  run T lines s =
    {| OFF_COUNTY := false;
       RECORD_FLAG := RECORD_FLAG s;
       LINES_LIST := LINES_LIST s;
       TOTAL_COMPANIES_FOUND := TOTAL_COMPANIES_FOUND s;
       TOTAL_COMPANIES_RECORDED := TOTAL_COMPANIES_RECORDED s;
       NO_BRANCHES_FOUND := NO_BRANCHES_FOUND s;
       branches_file := branches_file s ++ filter is_envelope lines |}.
Proof.
  induction lines as [|l lines IH]; intros s Ho Hall.
  - destruct s; cbn in *. subst. rewrite app_nil_r. reflexivity.
  - inversion Hall as [|? ? Hb Hrest]; subst.
    rewrite run_cons. cbn [filter]. destruct (is_envelope l) eqn:He.
    + rewrite body_envelope by assumption.
      rewrite IH by (cbn; assumption). cbn. rewrite <- app_assoc. reflexivity.
    + rewrite body_idle by assumption. apply IH; assumption.
Qed.

(** While a block is being scanned, up to its next company start or
    sub-block end: envelope markers are written, every other line is
    buffered, and a county start holding the target raises the flag. *)
Lemma run_scan lines : forall s,
  OFF_COUNTY s = true ->
  Forall (fun l => is_blockstart l = false /\ is_countyend l = false) lines ->
  run T lines s =
    {| OFF_COUNTY := true;
       RECORD_FLAG :=
         RECORD_FLAG s
         || existsb (fun l => is_countystart l && contains T l) lines;
       LINES_LIST := LINES_LIST s ++ filter not_envelope lines;
       TOTAL_COMPANIES_FOUND := TOTAL_COMPANIES_FOUND s;
       TOTAL_COMPANIES_RECORDED := TOTAL_COMPANIES_RECORDED s;
       NO_BRANCHES_FOUND := NO_BRANCHES_FOUND s;
       branches_file := branches_file s ++ filter is_envelope lines |}.
Proof.
  induction lines as [|l lines IH]; intros s Ho Hall.
  - destruct s; cbn in *. subst.
    rewrite !app_nil_r, orb_false_r. reflexivity.
  - inversion Hall as [|? ? [Hb Hce] Hrest]; subst.
    rewrite run_cons. cbn [filter existsb]. unfold not_envelope at 1.
    destruct (is_envelope l) eqn:He.
    + rewrite body_envelope by assumption.
      rewrite IH by (cbn; assumption). cbn.
      destruct (is_countystart l) eqn:Hcs.
      * apply countystart_not_envelope in Hcs. congruence.
      * cbn. rewrite <- app_assoc. reflexivity.
    + destruct (is_countystart l) eqn:Hcs.
      * rewrite body_countystart_scan by assumption.
        rewrite IH by (assumption || reflexivity). cbn.
        rewrite <- app_assoc, orb_assoc. reflexivity.
      * rewrite body_ordinary_scan by assumption.
        rewrite IH by (assumption || reflexivity). cbn.
        rewrite <- app_assoc. reflexivity.
Qed.

Lemma filter_all {A} (f : A -> bool) (l : list A) :
  Forall (fun x => f x = true) l -> filter f l = l.
Proof.
  induction 1 as [|x l Hx _ IH]; cbn; [reflexivity|].
  rewrite Hx, IH. reflexivity.
Qed.

Lemma filter_none {A} (f : A -> bool) (l : list A) :
  Forall (fun x => f x = false) l -> filter f l = [].
Proof.
  induction 1 as [|x l Hx _ IH]; cbn; [reflexivity|].
  rewrite Hx, IH. reflexivity.
Qed.

Lemma existsb_none {A} (f : A -> bool) (l : list A) :
  Forall (fun x => f x = false) l -> existsb f l = false.
Proof.
  induction 1 as [|x l Hx _ IH]; cbn; [reflexivity|].
  rewrite Hx, IH. reflexivity.
Qed.

End Segments.

(** ** Properties of the record filter *)

Section Claims.

Variable T : string.

(** C8. Envelope markers pass through in every state: a line starting
    with STARTS or ENDS is appended to the output at once, whatever the
    state of the engine, and the pending buffer, the flags and the
    counters stay as they were. *)
Theorem envelope_pass_through (line : string) (s : state) :
  is_envelope line = true ->
  branches_file (body T line s) = branches_file s ++ [line]
  /\ LINES_LIST (body T line s) = LINES_LIST s
  /\ OFF_COUNTY (body T line s) = OFF_COUNTY s
  /\ RECORD_FLAG (body T line s) = RECORD_FLAG s
  /\ TOTAL_COMPANIES_FOUND (body T line s) = TOTAL_COMPANIES_FOUND s
  /\ TOTAL_COMPANIES_RECORDED (body T line s) = TOTAL_COMPANIES_RECORDED s.
Proof.
  intros He. rewrite body_envelope by assumption. cbn. tauto.
Qed.

Lemma envelope_only_output_aux (lines : list string) :
  Forall (fun l => is_blockstart l = false /\ is_countystart l = false
                   /\ is_countyend l = false) lines ->
  branches_file (process_lines T lines) = filter is_envelope lines.
Proof.
  intros Hall. unfold process_lines. rewrite run_idle.
  - reflexivity.
  - reflexivity.
  - eapply Forall_impl; [|exact Hall]. cbn. tauto.
Qed.

(** C1 (amended). On an input with only envelope markers and ordinary
    lines, the output is the envelope markers of the input, in order:
    ordinary lines met outside a block are dropped. *)
Theorem envelope_only_output (lines : list string) :
  Forall (fun l => is_blockstart l = false /\ is_countystart l = false
                   /\ is_countyend l = false) lines ->
  branches_file (process_lines T lines) = filter is_envelope lines.
Proof. apply envelope_only_output_aux. Qed.

(** An input made of envelope markers only is copied to the output. *)
Corollary envelope_only_identity (lines : list string) :
  Forall (fun l => is_envelope l = true) lines ->
  branches_file (process_lines T lines) = lines.
Proof.
  intros Henv. rewrite envelope_only_output_aux.
  - apply filter_all. exact Henv.
  - eapply Forall_impl; [|exact Henv]. intros l He. repeat split.
    + destruct (is_blockstart l) eqn:Hb; [|reflexivity].
      apply blockstart_not_envelope in Hb. congruence.
    + destruct (is_countystart l) eqn:Hb; [|reflexivity].
      apply countystart_not_envelope in Hb. congruence.
    + destruct (is_countyend l) eqn:Hb; [|reflexivity].
      apply countyend_not_envelope in Hb. congruence.
Qed.

Lemma body_found line s :
  TOTAL_COMPANIES_FOUND (body T line s)
  = TOTAL_COMPANIES_FOUND s + (if is_blockstart line then 1 else 0).
Proof.
  destruct (is_blockstart line) eqn:Hb.
  - destruct (contains T line) eqn:Hc.
    + rewrite body_blockstart_home by assumption. reflexivity.
    + rewrite body_blockstart_scan by assumption. reflexivity.
  - unfold is_blockstart in Hb. unfold body. rewrite Hb.
    destruct (startswith line "STARTS" || startswith line "ENDS"),
      (startswith line "COUNTYSTARTS" && OFF_COUNTY s),
      (startswith line "COUNTYENDS" && OFF_COUNTY s),
      (RECORD_FLAG s); destruct (OFF_COUNTY s) eqn:Ho; cbn; lia.
Qed.

Lemma run_found lines : forall s,
  TOTAL_COMPANIES_FOUND (run T lines s)
  = TOTAL_COMPANIES_FOUND s + length (filter is_blockstart lines).
Proof.
  induction lines as [|l lines IH]; intros s; cbn [filter].
  - cbn. lia.
  - rewrite run_cons, IH, body_found.
    destruct (is_blockstart l); cbn [length]; lia.
Qed.

(** C6. The final companies-seen counter is the number of lines of the
    input that start with BLOCKSTARTS: each of them adds one, on the
    discarding branch and on the scanning branch alike. *)
Theorem companies_seen_count (lines : list string) :
  TOTAL_COMPANIES_FOUND (process_lines T lines)
  = length (filter is_blockstart lines)
  /\ forall line s,
       TOTAL_COMPANIES_FOUND (body T line s)
       = TOTAL_COMPANIES_FOUND s + (if is_blockstart line then 1 else 0).
Proof.
  split.
  - unfold process_lines. rewrite run_found. reflexivity.
  - apply body_found.
Qed.

Lemma body_counters_ok line s : counters_ok s -> counters_ok (body T line s).
Proof.
  unfold counters_ok, body.
  destruct (startswith line "STARTS" || startswith line "ENDS"),
    (startswith line "BLOCKSTARTS"), (negb (contains T line)),
    (startswith line "COUNTYSTARTS"), (startswith line "COUNTYENDS"),
    (RECORD_FLAG s); destruct (OFF_COUNTY s) eqn:Ho; cbn; rewrite ?Ho; lia.
Qed.

Lemma run_counters_ok lines : forall s,
  counters_ok s -> counters_ok (run T lines s).
Proof.
  induction lines as [|l lines IH]; intros s Hs; [exact Hs|].
  rewrite run_cons. apply IH, body_counters_ok, Hs.
Qed.

(** C10. Companies-kept never exceeds companies-seen: after any number
    of lines of any input, and so at the end of the stream; while a
    block is being scanned there is room left for its own increment. *)
Theorem kept_at_most_seen (lines : list string) (n : nat) :
  TOTAL_COMPANIES_RECORDED (process_lines T (firstn n lines))
  <= TOTAL_COMPANIES_FOUND (process_lines T (firstn n lines))
  /\ counters_ok (process_lines T (firstn n lines))
  /\ TOTAL_COMPANIES_RECORDED (process_lines T lines)
     <= TOTAL_COMPANIES_FOUND (process_lines T lines).
Proof.
  assert (H : forall ls, counters_ok (process_lines T ls)).
  { intros ls. apply run_counters_ok. unfold counters_ok. cbn. lia. }
  pose proof (H (firstn n lines)) as Hn. pose proof (H lines) as Hl.
  split; [|split; [exact Hn|]].
  - unfold counters_ok in Hn. lia.
  - unfold counters_ok in Hl. lia.
Qed.

(** *** Order of the output *)

Lemma body_order line s :
  subseq (filter not_envelope (branches_file (body T line s)
                               ++ LINES_LIST (body T line s)))
         (filter not_envelope (branches_file s ++ LINES_LIST s)
          ++ filter not_envelope [line]).
Proof.
  destruct (is_envelope line) eqn:He.
  - rewrite body_envelope by assumption. cbn [branches_file LINES_LIST].
    assert (Hf : filter not_envelope [line] = []).
    { cbn. unfold not_envelope. rewrite He. reflexivity. }
    rewrite !filter_app, Hf, !app_nil_r. apply subseq_refl.
  - unfold is_envelope in He. unfold body. rewrite He.
    destruct (startswith line "BLOCKSTARTS"), (negb (contains T line)),
      (startswith line "COUNTYSTARTS"), (startswith line "COUNTYENDS"),
      (RECORD_FLAG s); destruct (OFF_COUNTY s) eqn:Ho;
      cbn [andb branches_file LINES_LIST];
      rewrite ?app_nil_r, !filter_app, <- ?app_assoc;
      first [ apply subseq_refl
            | apply subseq_app_l
            | rewrite app_assoc; apply subseq_app_l ].
Qed.

Lemma run_order lines : forall s seen,
  subseq (filter not_envelope (branches_file s ++ LINES_LIST s))
         (filter not_envelope seen) ->
  subseq (filter not_envelope (branches_file (run T lines s)
                               ++ LINES_LIST (run T lines s)))
         (filter not_envelope (seen ++ lines)).
Proof.
  induction lines as [|l lines IH]; intros s seen Hs.
  - rewrite app_nil_r. exact Hs.
  - rewrite run_cons.
    replace (seen ++ l :: lines) with ((seen ++ [l]) ++ lines)
      by (rewrite <- app_assoc; reflexivity).
    apply IH. rewrite (filter_app _ seen).
    eapply subseq_trans; [apply body_order|].
    apply subseq_app; [exact Hs | apply subseq_refl].
Qed.

Lemma body_buffer_clean line s : buffer_clean s -> buffer_clean (body T line s).
Proof.
  unfold buffer_clean. intros Hs.
  destruct (is_envelope line) eqn:He.
  - rewrite body_envelope by assumption. exact Hs.
  - unfold is_envelope in He. unfold body. rewrite He.
    assert (Hl : Forall (fun l => is_envelope l = false) (LINES_LIST s ++ [line])).
    { apply Forall_app. split; [exact Hs|]. constructor; [exact He | constructor]. }
    destruct (startswith line "BLOCKSTARTS"), (negb (contains T line)),
      (startswith line "COUNTYSTARTS"), (startswith line "COUNTYENDS"),
      (RECORD_FLAG s); destruct (OFF_COUNTY s) eqn:Ho;
      cbn [andb LINES_LIST]; rewrite ?Ho;
      first [ exact Hs | exact Hl | constructor ].
Qed.

Lemma body_envelope_output line s :
  buffer_clean s ->
  filter is_envelope (branches_file (body T line s))
  = filter is_envelope (branches_file s) ++ filter is_envelope [line].
Proof.
  unfold buffer_clean. intros Hs.
  destruct (is_envelope line) eqn:He.
  - rewrite body_envelope by assumption. cbn [branches_file].
    apply filter_app.
  - assert (Hf : filter is_envelope [line] = []).
    { cbn. rewrite He. reflexivity. }
    assert (Hl : filter is_envelope (LINES_LIST s ++ [line]) = []).
    { rewrite filter_app, Hf, app_nil_r. apply filter_none. exact Hs. }
    rewrite Hf, app_nil_r.
    unfold is_envelope in He. unfold body. rewrite He.
    destruct (startswith line "BLOCKSTARTS"), (negb (contains T line)),
      (startswith line "COUNTYSTARTS"), (startswith line "COUNTYENDS"),
      (RECORD_FLAG s); destruct (OFF_COUNTY s) eqn:Ho;
      cbn [andb branches_file];
      first [ reflexivity
            | rewrite filter_app, Hl, app_nil_r; reflexivity ].
Qed.

Lemma run_envelope_output lines : forall s,
  buffer_clean s ->
  filter is_envelope (branches_file (run T lines s))
  = filter is_envelope (branches_file s) ++ filter is_envelope lines.
Proof.
  induction lines as [|l lines IH]; intros s Hs.
  - cbn. rewrite app_nil_r. reflexivity.
  - rewrite run_cons, IH by (apply body_buffer_clean, Hs).
    rewrite body_envelope_output by exact Hs.
    rewrite <- app_assoc, <- filter_app. reflexivity.
Qed.

(** C9. Order preservation: the lines of the output that are not
    envelope markers, that is the lines of the kept blocks, are a
    subsequence of the input, so kept blocks follow one another as in
    the input and the lines inside a kept block keep their order; the
    envelope markers of the output are those of the input, in order. *)
Theorem order_preservation (lines : list string) :
  subseq (filter not_envelope (branches_file (process_lines T lines)))
         (filter not_envelope lines)
  /\ subseq (filter not_envelope (branches_file (process_lines T lines))) lines
  /\ filter is_envelope (branches_file (process_lines T lines))
     = filter is_envelope lines.
Proof.
  assert (H : subseq (filter not_envelope (branches_file (process_lines T lines)))
                     (filter not_envelope lines)).
  { eapply subseq_trans.
    2: { apply (run_order lines initial []). cbn. constructor. }
    rewrite filter_app. apply subseq_app_l. }
  split; [exact H|]. split.
  - eapply subseq_trans; [exact H | apply subseq_filter].
  - unfold process_lines. rewrite run_envelope_output; [reflexivity|].
    constructor.
Qed.

(** *** Whole blocks *)

(** The state in which a scanned block reaches the end line of its first
    county sub-block: envelope markers met inside the block are already
    written, every other line of the block is in the buffer. *)
Lemma run_block_prefix s bstart body1 cstart body2 :
  is_blockstart bstart = true ->
  contains T bstart = false ->
  Forall (fun l => is_blockstart l = false /\ is_countystart l = false
                   /\ is_countyend l = false) body1 ->
  is_countystart cstart = true ->
  Forall (fun l => is_blockstart l = false /\ is_countyend l = false) body2 ->
  run T (bstart :: body1 ++ cstart :: body2) s =
    {| OFF_COUNTY := true;
       RECORD_FLAG :=
         RECORD_FLAG s || contains T cstart
         || existsb (fun l => is_countystart l && contains T l) body2;
       LINES_LIST :=
         LINES_LIST s
         ++ bstart :: filter not_envelope body1
         ++ cstart :: filter not_envelope body2;
       TOTAL_COMPANIES_FOUND := TOTAL_COMPANIES_FOUND s + 1;
       TOTAL_COMPANIES_RECORDED := TOTAL_COMPANIES_RECORDED s;
       NO_BRANCHES_FOUND := NO_BRANCHES_FOUND s;
       branches_file :=
         branches_file s ++ filter is_envelope body1 ++ filter is_envelope body2 |}.
Proof.
  intros Hb Hc H1 Hcs H2.
  rewrite run_cons, run_app, run_cons.
  rewrite (body_blockstart_scan T bstart) by assumption.
  rewrite (run_scan T body1); [|reflexivity|].
  2: { eapply Forall_impl; [|exact H1]. cbn. tauto. }
  rewrite (body_countystart_scan T cstart) by (assumption || reflexivity).
  rewrite (run_scan T body2) by (assumption || reflexivity).
  rewrite (existsb_none _ body1).
  2: { eapply Forall_impl; [|exact H1]. cbn. intros l (_ & -> & _). reflexivity. }
  cbn. rewrite orb_false_r. f_equal; rewrite <- !app_assoc; reflexivity.
Qed.

Lemma filter_block (f : string -> bool) bstart body1 cstart body2 tl :
  filter f (bstart :: body1 ++ cstart :: body2 ++ tl)
  = filter f [bstart] ++ filter f body1 ++ filter f [cstart]
    ++ filter f body2 ++ filter f tl.
Proof.
  change (bstart :: body1 ++ cstart :: body2 ++ tl)
    with ([bstart] ++ body1 ++ [cstart] ++ body2 ++ tl).
  rewrite !filter_app. reflexivity.
Qed.

Lemma filter_one (f : string -> bool) line b :
  f line = b -> filter f [line] = if b then [line] else [].
Proof. intros <-. reflexivity. Qed.

(** What the loop does on a block whose start line does not hold the
    target and whose first county start line does, from any state: at
    the sub-block's end line the whole pending buffer, whatever it held
    when the block started followed by the lines of the block in input
    order (envelope markers, which are never buffered, apart), goes to
    the output; companies-kept and companies-seen grow by one and the
    buffer is emptied.  Only when the buffer was empty at the start line
    (and the block holds no envelope marker) does the output grow by
    exactly the block.  On the six-line scenario with target |3685| the
    output is the six lines, with one company seen and one kept. *)
Lemma matching_block_flushes_buffer :
  (forall s bstart body1 cstart body2 cend,
     is_blockstart bstart = true ->
     contains T bstart = false ->
     Forall (fun l => is_blockstart l = false /\ is_countystart l = false
                      /\ is_countyend l = false) body1 ->
     is_countystart cstart = true ->
     contains T cstart = true ->
     Forall (fun l => is_blockstart l = false /\ is_countyend l = false) body2 ->
     is_countyend cend = true ->
     let block := bstart :: body1 ++ cstart :: body2 ++ [cend] in
     let s1 := run T (bstart :: body1 ++ cstart :: body2) s in
     let s' := run T block s in
     branches_file s' = branches_file s1 ++ LINES_LIST s1 ++ [cend]
     /\ LINES_LIST s1 ++ [cend] = LINES_LIST s ++ filter not_envelope block
     /\ branches_file s1 = branches_file s ++ filter is_envelope block
     /\ (LINES_LIST s = [] ->
         Forall (fun l => is_envelope l = false) block ->
         branches_file s' = branches_file s ++ block)
     /\ TOTAL_COMPANIES_RECORDED s' = TOTAL_COMPANIES_RECORDED s + 1
     /\ TOTAL_COMPANIES_FOUND s' = TOTAL_COMPANIES_FOUND s + 1
     /\ LINES_LIST s' = [] /\ OFF_COUNTY s' = false /\ RECORD_FLAG s' = false)
  /\ exists st,
       process_text_file "|3685|" scenario_kept = Some st
       /\ branches_file st = readlines scenario_kept
       /\ branches_file st =
            [ln "STARTS"; ln "BLOCKSTARTS|1111|"; ln "COUNTYSTARTS|3685|";
             ln "data-row-A"; ln "COUNTYENDS"; ln "ENDS"]
       /\ TOTAL_COMPANIES_FOUND st = 1
       /\ TOTAL_COMPANIES_RECORDED st = 1.
Proof.
  split.
  - intros s bstart body1 cstart body2 cend Hb Hc H1 Hcs Hct H2 Hce block s1 s'.
    assert (Hs' : s' = body T cend s1).
    { subst s' s1 block.
      replace (bstart :: body1 ++ cstart :: body2 ++ [cend])
        with ((bstart :: body1 ++ cstart :: body2) ++ [cend])
        by (cbn; rewrite <- app_assoc; reflexivity).
      rewrite run_app. reflexivity. }
    assert (Hs1 := run_block_prefix s bstart body1 cstart body2 Hb Hc H1 Hcs H2).
    fold s1 in Hs1. rewrite Hct, orb_true_r in Hs1. cbn [orb] in Hs1.
    clearbody s' s1.
    assert (Hbuf : LINES_LIST s1 ++ [cend] = LINES_LIST s ++ filter not_envelope block).
    { rewrite Hs1. cbn [LINES_LIST]. subst block. rewrite filter_block.
      unfold not_envelope at 3 5 7.
      rewrite (filter_one _ bstart true), (filter_one _ cstart true),
        (filter_one _ cend true).
      - repeat (cbn [app]; rewrite <- app_assoc). reflexivity.
      - rewrite countyend_not_envelope by assumption. reflexivity.
      - rewrite countystart_not_envelope by assumption. reflexivity.
      - rewrite blockstart_not_envelope by assumption. reflexivity. }
    assert (Henv : branches_file s1 = branches_file s ++ filter is_envelope block).
    { rewrite Hs1. cbn [branches_file]. subst block. rewrite filter_block.
      rewrite (filter_one _ bstart false), (filter_one _ cstart false),
        (filter_one _ cend false).
      - cbn [app]. rewrite app_nil_r. reflexivity.
      - apply countyend_not_envelope. assumption.
      - apply countystart_not_envelope. assumption.
      - apply blockstart_not_envelope. assumption. }
    assert (Hoff : OFF_COUNTY s1 = true) by (rewrite Hs1; reflexivity).
    assert (Hflag : RECORD_FLAG s1 = true) by (rewrite Hs1; reflexivity).
    assert (Hfound : TOTAL_COMPANIES_FOUND s1 = TOTAL_COMPANIES_FOUND s + 1)
      by (rewrite Hs1; reflexivity).
    assert (Hrec : TOTAL_COMPANIES_RECORDED s1 = TOTAL_COMPANIES_RECORDED s)
      by (rewrite Hs1; reflexivity).
    assert (Hout : branches_file s' = branches_file s1 ++ LINES_LIST s1 ++ [cend]).
    { rewrite Hs', body_countyend_scan by assumption.
      cbn [branches_file]. rewrite Hflag. reflexivity. }
    split; [exact Hout|]. split; [exact Hbuf|]. split; [exact Henv|].
    split.
    { intros Hl Hne. rewrite Hout, Hbuf, Henv, Hl.
      rewrite (filter_none is_envelope block) by exact Hne.
      rewrite (filter_all not_envelope block).
      - rewrite app_nil_r. reflexivity.
      - eapply Forall_impl; [|exact Hne]. intros l Hl'.
        unfold not_envelope. rewrite Hl'. reflexivity. }
    rewrite Hs', body_countyend_scan by assumption.
    cbn. rewrite Hflag, Hfound, Hrec. repeat split; reflexivity.
  - eexists. split; [vm_compute; reflexivity|].
    cbn [branches_file TOTAL_COMPANIES_FOUND TOTAL_COMPANIES_RECORDED].
    repeat split; vm_compute; reflexivity.
Qed.

(** C4. Home-county exclusion.  A company block whose start line holds
    the target adds nothing of its own to the output and nothing to the
    pending buffer, whatever follows its start line up to the next
    company start (county sub-blocks holding the target included): only
    envelope markers met on the way are written.  Companies-seen grows
    by one, companies-kept stays. *)
Theorem home_county_exclusion (s : state) (bstart : string) (rest : list string) :
  is_blockstart bstart = true ->
  contains T bstart = true ->
  Forall (fun l => is_blockstart l = false) rest ->
  let s' := run T (bstart :: rest) s in
  branches_file s' = branches_file s ++ filter is_envelope rest
  /\ (Forall (fun l => is_envelope l = false) rest ->
      branches_file s' = branches_file s)
  /\ LINES_LIST s' = LINES_LIST s
  /\ TOTAL_COMPANIES_FOUND s' = TOTAL_COMPANIES_FOUND s + 1
  /\ TOTAL_COMPANIES_RECORDED s' = TOTAL_COMPANIES_RECORDED s.
Proof.
  intros Hb Hc Hrest s'. subst s'.
  rewrite run_cons, body_blockstart_home by assumption.
  rewrite run_idle by (assumption || reflexivity). cbn.
  repeat split; try reflexivity.
  intros Hne. rewrite filter_none by exact Hne. apply app_nil_r.
Qed.

(** The first-sub-block-only rule, from a state whose match flag is
    down: a scanned block whose first county sub-block does not hold the
    target writes nothing of its own, and after that sub-block's end
    line nothing of the company is buffered or written before the next
    company start; only envelope markers reach the output. *)
Lemma first_subblock_only s bstart body1 cstart body2 cend trailing :
  RECORD_FLAG s = false ->
  is_blockstart bstart = true ->
  contains T bstart = false ->
  Forall (fun l => is_blockstart l = false /\ is_countystart l = false
                   /\ is_countyend l = false) body1 ->
  is_countystart cstart = true ->
  contains T cstart = false ->
  Forall (fun l => is_blockstart l = false /\ is_countystart l = false
                   /\ is_countyend l = false) body2 ->
  is_countyend cend = true ->
  Forall (fun l => is_blockstart l = false) trailing ->
  let s' := run T (bstart :: body1 ++ cstart :: body2 ++ cend :: trailing) s in
  branches_file s'
  = branches_file s ++ filter is_envelope body1 ++ filter is_envelope body2
    ++ filter is_envelope trailing
  /\ LINES_LIST s' = []
  /\ OFF_COUNTY s' = false
  /\ RECORD_FLAG s' = false
  /\ TOTAL_COMPANIES_RECORDED s' = TOTAL_COMPANIES_RECORDED s
  /\ TOTAL_COMPANIES_FOUND s' = TOTAL_COMPANIES_FOUND s + 1.
Proof.
  intros Hf Hb Hc H1 Hcs Hct H2 Hce Htr s'. subst s'.
  replace (bstart :: body1 ++ cstart :: body2 ++ cend :: trailing)
    with ((bstart :: body1 ++ cstart :: body2) ++ cend :: trailing)
    by (cbn; rewrite <- app_assoc; reflexivity).
  rewrite run_app, run_block_prefix; try assumption.
  2: { eapply Forall_impl; [|exact H2]. cbn. tauto. }
  rewrite run_cons, body_countyend_scan by (assumption || reflexivity).
  rewrite run_idle by (assumption || reflexivity).
  rewrite (existsb_none _ body2).
  2: { eapply Forall_impl; [|exact H2]. cbn. intros l (_ & -> & _). reflexivity. }
  cbn. rewrite Hf, Hct. cbn. rewrite app_nil_r, Nat.add_0_r, <- !app_assoc.
  repeat split; reflexivity.
Qed.

(** C7. Silent drop.  [process_text_file] ends normally on every text.
    When the input ends inside a scanned block (no company start and no
    sub-block end after its start line) the output is what it was when
    the block opened, plus the envelope markers met since: none of the
    buffered lines is written, and companies-kept is unchanged.  A
    sub-block end line met while no block is scanned changes nothing. *)
Theorem unterminated_block_dropped :
  (forall file, exists st,
     process_text_file T file = Some st
     /\ st = process_lines T (readlines file))
  /\ (forall pre bstart rest,
        is_blockstart bstart = true ->
        contains T bstart = false ->
        Forall (fun l => is_blockstart l = false /\ is_countyend l = false) rest ->
        let s := process_lines T pre in
        let s' := process_lines T (pre ++ bstart :: rest) in
        OFF_COUNTY s' = true
        /\ branches_file s' = branches_file s ++ filter is_envelope rest
        /\ LINES_LIST s' = LINES_LIST s ++ bstart :: filter not_envelope rest
        /\ TOTAL_COMPANIES_RECORDED s' = TOTAL_COMPANIES_RECORDED s)
  /\ (forall line s,
        is_countyend line = true ->
        OFF_COUNTY s = false ->
        body T line s = s).
Proof.
  split; [|split].
  - intros file. eexists. split; [apply process_text_file_run | reflexivity].
  - intros pre bstart rest Hb Hc Hrest s s'. subst s s'.
    unfold process_lines.
    rewrite run_app, run_cons, body_blockstart_scan by assumption.
    rewrite run_scan by (assumption || reflexivity). cbn.
    repeat split; try reflexivity.
    rewrite <- app_assoc. reflexivity.
  - intros line s Hce Ho. apply body_idle.
    + apply countyend_not_envelope, Hce.
    + apply countyend_not_blockstart, Hce.
    + exact Ho.
Qed.

End Claims.

(** ** The scenarios, by evaluation *)

(** C8, at the end marker met while a block is being scanned. *)
Lemma envelope_pass_through_witness :
  is_envelope (ln "ENDS") = true
  /\ branches_file (body "|3685|" (ln "ENDS")
                      (process_lines "|3685|" [ln "BLOCKSTARTS|1111|"]))
     = [ln "ENDS"]
  /\ LINES_LIST (body "|3685|" (ln "ENDS")
                   (process_lines "|3685|" [ln "BLOCKSTARTS|1111|"]))
     = [ln "BLOCKSTARTS|1111|"].
Proof.
  split; [reflexivity|].
  destruct (envelope_pass_through "|3685|" (ln "ENDS")
              (process_lines "|3685|" [ln "BLOCKSTARTS|1111|"]) eq_refl)
    as (Hout & Hbuf & _).
  split; [exact Hout | exact Hbuf].
Defined.

(** C1 as written fails: an ordinary line between the envelope markers
    is not copied to the output. *)
Lemma pass_through_drops_ordinary :
  Forall (fun l => is_blockstart l = false /\ is_countystart l = false
                   /\ is_countyend l = false)
         (readlines scenario_ordinary)
  /\ readlines scenario_ordinary = [ln "STARTS"; ln "data-row-A"; ln "ENDS"]
  /\ process_text_file "|3685|" scenario_ordinary
     = Some (process_lines "|3685|" (readlines scenario_ordinary))
  /\ branches_file (process_lines "|3685|" (readlines scenario_ordinary))
     = [ln "STARTS"; ln "ENDS"]
  /\ branches_file (process_lines "|3685|" (readlines scenario_ordinary))
     <> readlines scenario_ordinary.
Proof.
  split; [|split; [|split; [|split]]].
  - vm_compute. repeat constructor.
  - vm_compute. reflexivity.
  - vm_compute. reflexivity.
  - vm_compute. reflexivity.
  - vm_compute. discriminate.
Qed.

Lemma envelope_only_output_witness :
  Forall (fun l => is_blockstart l = false /\ is_countystart l = false
                   /\ is_countyend l = false)
         [ln "STARTS"; ln "data-row-A"; ln "ENDS"]
  /\ branches_file (process_lines "|3685|" [ln "STARTS"; ln "data-row-A"; ln "ENDS"])
     = [ln "STARTS"; ln "ENDS"].
Proof.
  assert (H : Forall (fun l => is_blockstart l = false /\ is_countystart l = false
                               /\ is_countyend l = false)
                     [ln "STARTS"; ln "data-row-A"; ln "ENDS"]).
  { repeat constructor. }
  split; [exact H|].
  exact (envelope_only_output "|3685|" _ H).
Defined.

(** C2, on a company block that is followed by the next company start
    before any sub-block end line: when the second start line is read
    the match flag raised inside the first block is still up, and the
    buffer keeps the two lines of the first block in front of it. *)
Lemma stale_state_at_block_start :
  is_blockstart (ln "BLOCKSTARTS|2222|") = true
  /\ contains "|3685|" (ln "BLOCKSTARTS|2222|") = false
  /\ RECORD_FLAG (process_lines "|3685|"
                    [ln "BLOCKSTARTS|1111|"; ln "COUNTYSTARTS|3685|"]) = true
  /\ readlines scenario_unterminated
     = [ln "BLOCKSTARTS|1111|"; ln "COUNTYSTARTS|3685|"; ln "BLOCKSTARTS|2222|"]
  /\ process_text_file "|3685|" scenario_unterminated
     = Some {| OFF_COUNTY := true;
               RECORD_FLAG := true;
               LINES_LIST := [ln "BLOCKSTARTS|1111|"; ln "COUNTYSTARTS|3685|";
                              ln "BLOCKSTARTS|2222|"];
               TOTAL_COMPANIES_FOUND := 2;
               TOTAL_COMPANIES_RECORDED := 0;
               NO_BRANCHES_FOUND := true;
               branches_file := [] |}.
Proof. repeat split; vm_compute; reflexivity. Qed.

(** From a state with an empty buffer and the flag down, the scanning
    branch does start a block afresh. *)
Lemma fresh_block_after_clean_state (T line : string) (s : state) :
  is_blockstart line = true ->
  contains T line = false ->
  LINES_LIST s = [] ->
  RECORD_FLAG s = false ->
  LINES_LIST (body T line s) = [line] /\ RECORD_FLAG (body T line s) = false.
Proof.
  intros Hb Hc Hl Hf. rewrite body_blockstart_scan by assumption.
  cbn. rewrite Hl, Hf. split; reflexivity.
Qed.

Lemma matching_block_flushes_buffer_example :
  (is_blockstart (ln "BLOCKSTARTS|1111|") = true
   /\ contains "|3685|" (ln "BLOCKSTARTS|1111|") = false
   /\ Forall (fun l => is_blockstart l = false /\ is_countystart l = false
                       /\ is_countyend l = false) [ln "data-row-0"]
   /\ is_countystart (ln "COUNTYSTARTS|3685|") = true
   /\ contains "|3685|" (ln "COUNTYSTARTS|3685|") = true
   /\ Forall (fun l => is_blockstart l = false /\ is_countyend l = false)
        [ln "data-row-A"]
   /\ is_countyend (ln "COUNTYENDS") = true
   /\ LINES_LIST (process_lines "|3685|" [ln "STARTS"]) = []
   /\ Forall (fun l => is_envelope l = false)
        [ln "BLOCKSTARTS|1111|"; ln "data-row-0"; ln "COUNTYSTARTS|3685|";
         ln "data-row-A"; ln "COUNTYENDS"])
  /\ branches_file
       (run "|3685|"
          [ln "BLOCKSTARTS|1111|"; ln "data-row-0"; ln "COUNTYSTARTS|3685|";
           ln "data-row-A"; ln "COUNTYENDS"]
          (process_lines "|3685|" [ln "STARTS"]))
     = [ln "STARTS"; ln "BLOCKSTARTS|1111|"; ln "data-row-0";
        ln "COUNTYSTARTS|3685|"; ln "data-row-A"; ln "COUNTYENDS"].
Proof.
  assert (H1 : Forall (fun l => is_blockstart l = false /\ is_countystart l = false
                                /\ is_countyend l = false) [ln "data-row-0"])
    by (repeat constructor).
  assert (H2 : Forall (fun l => is_blockstart l = false /\ is_countyend l = false)
                 [ln "data-row-A"])
    by (repeat constructor).
  assert (H3 : Forall (fun l => is_envelope l = false)
                 [ln "BLOCKSTARTS|1111|"; ln "data-row-0"; ln "COUNTYSTARTS|3685|";
                  ln "data-row-A"; ln "COUNTYENDS"])
    by (repeat constructor).
  split; [repeat split; solve [reflexivity | assumption]|].
  destruct (proj1 (matching_block_flushes_buffer "|3685|")
              (process_lines "|3685|" [ln "STARTS"])
              (ln "BLOCKSTARTS|1111|") [ln "data-row-0"]
              (ln "COUNTYSTARTS|3685|") [ln "data-row-A"] (ln "COUNTYENDS")
              eq_refl eq_refl H1 eq_refl eq_refl H2 eq_refl)
    as (_ & _ & _ & Hout & _).
  exact (Hout eq_refl H3).
Defined.

(** C3, on a company without any county sub-block followed by a company
    whose first sub-block is of the target county: at the end line of
    that sub-block the buffer still holds the two lines of the first
    company, and they are written in front of the four lines of the
    second one, the start line through the end line, which are all the
    claim has written. *)
Lemma stale_lines_written_with_kept_block :
  readlines scenario_stale_kept
  = [ln "BLOCKSTARTS|1111|"; ln "data-of-1111"; ln "BLOCKSTARTS|2222|";
     ln "COUNTYSTARTS|3685|"; ln "data-row-A"; ln "COUNTYENDS"]
  /\ is_blockstart (ln "BLOCKSTARTS|2222|") = true
  /\ contains "|3685|" (ln "BLOCKSTARTS|2222|") = false
  /\ is_countystart (ln "COUNTYSTARTS|3685|") = true
  /\ contains "|3685|" (ln "COUNTYSTARTS|3685|") = true
  /\ LINES_LIST (process_lines "|3685|"
                   [ln "BLOCKSTARTS|1111|"; ln "data-of-1111";
                    ln "BLOCKSTARTS|2222|"; ln "COUNTYSTARTS|3685|";
                    ln "data-row-A"])
     = [ln "BLOCKSTARTS|1111|"; ln "data-of-1111"; ln "BLOCKSTARTS|2222|";
        ln "COUNTYSTARTS|3685|"; ln "data-row-A"]
  /\ process_text_file "|3685|" scenario_stale_kept
     = Some {| OFF_COUNTY := false;
               RECORD_FLAG := false;
               LINES_LIST := [];
               TOTAL_COMPANIES_FOUND := 2;
               TOTAL_COMPANIES_RECORDED := 1;
               NO_BRANCHES_FOUND := false;
               branches_file :=
                 [ln "BLOCKSTARTS|1111|"; ln "data-of-1111";
                  ln "BLOCKSTARTS|2222|"; ln "COUNTYSTARTS|3685|";
                  ln "data-row-A"; ln "COUNTYENDS"] |}
  /\ branches_file (process_lines "|3685|" (readlines scenario_stale_kept))
     <> [ln "BLOCKSTARTS|2222|"; ln "COUNTYSTARTS|3685|"; ln "data-row-A";
         ln "COUNTYENDS"].
Proof.
  repeat split; try (vm_compute; reflexivity).
  vm_compute. discriminate.
Qed.

Lemma home_county_exclusion_witness :
  (is_blockstart (ln "BLOCKSTARTS|3685|") = true
   /\ contains "|3685|" (ln "BLOCKSTARTS|3685|") = true
   /\ Forall (fun l => is_blockstart l = false)
        [ln "COUNTYSTARTS|3685|"; ln "data-row-A"; ln "COUNTYENDS"]
   /\ Forall (fun l => is_envelope l = false)
        [ln "COUNTYSTARTS|3685|"; ln "data-row-A"; ln "COUNTYENDS"])
  /\ branches_file
       (run "|3685|"
          [ln "BLOCKSTARTS|3685|"; ln "COUNTYSTARTS|3685|"; ln "data-row-A";
           ln "COUNTYENDS"]
          (process_lines "|3685|" [ln "STARTS"]))
     = [ln "STARTS"]
  /\ TOTAL_COMPANIES_FOUND
       (run "|3685|"
          [ln "BLOCKSTARTS|3685|"; ln "COUNTYSTARTS|3685|"; ln "data-row-A";
           ln "COUNTYENDS"]
          (process_lines "|3685|" [ln "STARTS"]))
     = 1
  /\ TOTAL_COMPANIES_RECORDED
       (run "|3685|"
          [ln "BLOCKSTARTS|3685|"; ln "COUNTYSTARTS|3685|"; ln "data-row-A";
           ln "COUNTYENDS"]
          (process_lines "|3685|" [ln "STARTS"]))
     = 0.
Proof.
  assert (H1 : Forall (fun l => is_blockstart l = false)
                 [ln "COUNTYSTARTS|3685|"; ln "data-row-A"; ln "COUNTYENDS"])
    by (repeat constructor).
  assert (H2 : Forall (fun l => is_envelope l = false)
                 [ln "COUNTYSTARTS|3685|"; ln "data-row-A"; ln "COUNTYENDS"])
    by (repeat constructor).
  split; [repeat split; solve [reflexivity | assumption]|].
  destruct (home_county_exclusion "|3685|"
              (process_lines "|3685|" [ln "STARTS"])
              (ln "BLOCKSTARTS|3685|")
              [ln "COUNTYSTARTS|3685|"; ln "data-row-A"; ln "COUNTYENDS"]
              eq_refl eq_refl H1)
    as (_ & Hout & _ & Hseen & Hkept).
  split; [exact (Hout H2) | split; [exact Hseen | exact Hkept]].
Defined.

(** C5, on the same unterminated block followed by a company whose first
    sub-block does not hold the target: the second company is written
    out, with the lines left over from the first, and counted as kept. *)
Lemma stale_flag_keeps_unmatched_block :
  readlines scenario_leak
  = [ln "BLOCKSTARTS|1111|"; ln "COUNTYSTARTS|3685|"; ln "BLOCKSTARTS|2222|";
     ln "COUNTYSTARTS|9999|"; ln "data-row-B"; ln "COUNTYENDS"]
  /\ contains "|3685|" (ln "BLOCKSTARTS|2222|") = false
  /\ contains "|3685|" (ln "COUNTYSTARTS|9999|") = false
  /\ process_text_file "|3685|" scenario_leak
     = Some {| OFF_COUNTY := false;
               RECORD_FLAG := false;
               LINES_LIST := [];
               TOTAL_COMPANIES_FOUND := 2;
               TOTAL_COMPANIES_RECORDED := 1;
               NO_BRANCHES_FOUND := false;
               branches_file :=
                 [ln "BLOCKSTARTS|1111|"; ln "COUNTYSTARTS|3685|";
                  ln "BLOCKSTARTS|2222|"; ln "COUNTYSTARTS|9999|";
                  ln "data-row-B"; ln "COUNTYENDS"] |}.
Proof. repeat split; vm_compute; reflexivity. Qed.

Lemma unterminated_block_dropped_witness :
  (is_blockstart (ln "BLOCKSTARTS|1111|") = true
   /\ contains "|3685|" (ln "BLOCKSTARTS|1111|") = false
   /\ Forall (fun l => is_blockstart l = false /\ is_countyend l = false)
        [ln "COUNTYSTARTS|3685|"; ln "data-row-A"; ln "ENDS"])
  /\ branches_file
       (process_lines "|3685|"
          ([ln "STARTS"] ++ ln "BLOCKSTARTS|1111|"
             :: [ln "COUNTYSTARTS|3685|"; ln "data-row-A"; ln "ENDS"]))
     = [ln "STARTS"; ln "ENDS"]
  /\ TOTAL_COMPANIES_RECORDED
       (process_lines "|3685|"
          ([ln "STARTS"] ++ ln "BLOCKSTARTS|1111|"
             :: [ln "COUNTYSTARTS|3685|"; ln "data-row-A"; ln "ENDS"]))
     = 0
  /\ body "|3685|" (ln "COUNTYENDS") initial = initial.
Proof.
  assert (H1 : Forall (fun l => is_blockstart l = false /\ is_countyend l = false)
                 [ln "COUNTYSTARTS|3685|"; ln "data-row-A"; ln "ENDS"])
    by (repeat constructor).
  split; [repeat split; solve [reflexivity | assumption]|].
  destruct (unterminated_block_dropped "|3685|") as (_ & Hblock & Hend).
  destruct (Hblock [ln "STARTS"] (ln "BLOCKSTARTS|1111|")
              [ln "COUNTYSTARTS|3685|"; ln "data-row-A"; ln "ENDS"]
              eq_refl eq_refl H1)
    as (_ & Hout & _ & Hkept).
  split; [exact Hout | split; [exact Hkept|]].
  exact (Hend (ln "COUNTYENDS") initial eq_refl eq_refl).
Defined.

(** ** More on the loop: what the output holds *)

Section Output.

Variable T : string.

Lemma body_transition line s : transition T line s (body T line s).
Proof.
  destruct (is_envelope line) eqn:He.
  { rewrite body_envelope by assumption. apply t_envelope. assumption. }
  destruct (is_blockstart line) eqn:Hb.
  { destruct (contains T line) eqn:Hc.
    - rewrite body_blockstart_home by assumption.
      apply t_block_home; assumption.
    - rewrite body_blockstart_scan by assumption.
      apply t_block_scan; assumption. }
  destruct (OFF_COUNTY s) eqn:Ho.
  2: { rewrite body_idle by assumption. apply t_skip; assumption. }
  destruct (is_countystart line) eqn:Hcs.
  { rewrite body_countystart_scan by assumption.
    apply t_county_start; assumption. }
  destruct (is_countyend line) eqn:Hce.
  { rewrite body_countyend_scan by assumption.
    apply t_county_end; assumption. }
  rewrite body_ordinary_scan by assumption. apply t_buffer; assumption.
Qed.

(** An invariant of the loop body that holds at the start holds after
    any run of lines. *)
Lemma run_invariant (P : state -> Prop) :
  (forall line s, P s -> P (body T line s)) ->
  forall lines s, P s -> P (run T lines s).
Proof.
  intros Hstep lines. induction lines as [|l lines IH]; intros s Hs.
  - exact Hs.
  - rewrite run_cons. apply IH, Hstep, Hs.
Qed.

(** *** Company start lines in the output *)

Lemma body_off_county line s :
  forallb (off_county_line T) (branches_file s ++ LINES_LIST s) = true ->
  forallb (off_county_line T)
    (branches_file (body T line s) ++ LINES_LIST (body T line s)) = true.
Proof.
  intros Hs. rewrite forallb_app in Hs. apply andb_prop in Hs as [Ho Hl].
  assert (Hnb : is_blockstart line = false -> off_county_line T line = true).
  { unfold off_county_line. intros ->. reflexivity. }
  assert (Hnc : contains T line = false -> off_county_line T line = true).
  { unfold off_county_line. intros ->. rewrite andb_false_r. reflexivity. }
  destruct (body_transition line s);
    cbn [branches_file LINES_LIST];
    rewrite ?forallb_app; cbn [forallb];
    rewrite ?Ho, ?Hl; cbn [andb]; try reflexivity.
  - rewrite Hnb; [reflexivity|].
    destruct (is_blockstart line) eqn:Hb; [|reflexivity].
    apply blockstart_not_envelope in Hb. congruence.
  - rewrite Hnc by assumption. reflexivity.
  - rewrite Hnb by assumption. reflexivity.
  - destruct (RECORD_FLAG s); cbn [forallb andb]; [|reflexivity].
    rewrite forallb_app, Hl. cbn. rewrite Hnb by assumption. reflexivity.
  - rewrite Hnb by assumption. reflexivity.
Qed.

(** X1. No start line of a company of the target county is ever
    written: every line of the output that starts with BLOCKSTARTS does
    not hold the target. *)
Theorem output_blockstarts_off_county (lines : list string) :
  forallb (off_county_line T) (branches_file (process_lines T lines)) = true.
Proof.
  assert (H : forallb (off_county_line T)
                (branches_file (process_lines T lines)
                 ++ LINES_LIST (process_lines T lines)) = true).
  { unfold process_lines.
    apply (run_invariant
             (fun s => forallb (off_county_line T)
                         (branches_file s ++ LINES_LIST s) = true)).
    - intros line s. apply body_off_county.
    - reflexivity. }
  rewrite forallb_app in H. apply andb_prop in H. tauto.
Qed.

(** *** Sub-block end lines in the output *)

Lemma not_countyend_envelope line :
  is_envelope line = true -> is_countyend line = false.
Proof.
  intros He. destruct (is_countyend line) eqn:Hc; [|reflexivity].
  apply countyend_not_envelope in Hc. congruence.
Qed.

Lemma not_countyend_blockstart line :
  is_blockstart line = true -> is_countyend line = false.
Proof.
  intros Hb. destruct (is_countyend line) eqn:Hc; [|reflexivity].
  apply countyend_not_blockstart in Hc. congruence.
Qed.

Lemma not_countyend_countystart line :
  is_countystart line = true -> is_countyend line = false.
Proof.
  intros Hs. destruct (is_countyend line) eqn:Hc; [|reflexivity].
  apply countyend_not_countystart in Hc. congruence.
Qed.

Lemma body_countyends line s :
  filter is_countyend (LINES_LIST s) = []
  /\ length (filter is_countyend (branches_file s)) = TOTAL_COMPANIES_RECORDED s ->
  filter is_countyend (LINES_LIST (body T line s)) = []
  /\ length (filter is_countyend (branches_file (body T line s)))
     = TOTAL_COMPANIES_RECORDED (body T line s).
Proof.
  intros [Hl Ho].
  destruct (body_transition line s) as [He|He Hb Hc|He Hb Hc|He Hb Hcs Hoff
                                        |He Hb Hcs Hce Hoff|He Hb Hcs Hce Hoff
                                        |He Hb Hoff];
    cbn [branches_file LINES_LIST TOTAL_COMPANIES_RECORDED];
    rewrite ?filter_app, ?Hl; cbn [filter app].
  - rewrite not_countyend_envelope by assumption.
    rewrite app_nil_r. tauto.
  - rewrite not_countyend_blockstart by assumption. tauto.
  - tauto.
  - rewrite not_countyend_countystart by assumption. tauto.
  - split; [reflexivity|]. destruct (RECORD_FLAG s).
    + rewrite !filter_app, Hl. cbn [filter app]. rewrite Hce.
      rewrite length_app. cbn [length]. lia.
    + cbn [filter]. rewrite app_nil_r. lia.
  - rewrite Hce. tauto.
  - tauto.
Qed.

(** X2. Companies-kept is the number of sub-block end lines written:
    each kept company puts exactly one line starting with COUNTYENDS in
    the output, the last line of what is written for it. *)
Theorem kept_counts_countyends (lines : list string) :
  length (filter is_countyend (branches_file (process_lines T lines)))
  = TOTAL_COMPANIES_RECORDED (process_lines T lines).
Proof.
  unfold process_lines.
  apply (run_invariant
           (fun s => filter is_countyend (LINES_LIST s) = []
                     /\ length (filter is_countyend (branches_file s))
                        = TOTAL_COMPANIES_RECORDED s)).
  - intros line s. apply body_countyends.
  - split; reflexivity.
Qed.

(** *** When nothing is kept *)

Lemma body_nothing_kept line s :
  NO_BRANCHES_FOUND s = (TOTAL_COMPANIES_RECORDED s =? 0)%nat
  /\ (TOTAL_COMPANIES_RECORDED s = 0 ->
      filter not_envelope (branches_file s) = []) ->
  NO_BRANCHES_FOUND (body T line s)
  = (TOTAL_COMPANIES_RECORDED (body T line s) =? 0)%nat
  /\ (TOTAL_COMPANIES_RECORDED (body T line s) = 0 ->
      filter not_envelope (branches_file (body T line s)) = []).
Proof.
  intros [Hn Ho].
  destruct (body_transition line s) as [He|He Hb Hc|He Hb Hc|He Hb Hcs Hoff
                                        |He Hb Hcs Hce Hoff|He Hb Hcs Hce Hoff
                                        |He Hb Hoff];
    cbn [branches_file NO_BRANCHES_FOUND TOTAL_COMPANIES_RECORDED];
    try (split; assumption).
  - split; [assumption|]. intros Hz. rewrite filter_app, Ho by assumption.
    cbn. unfold not_envelope. rewrite He. reflexivity.
  - destruct (RECORD_FLAG s).
    + split.
      * rewrite andb_false_r. symmetry. apply Nat.eqb_neq. lia.
      * intros Hz. lia.
    + rewrite andb_true_r, Nat.add_0_r, app_nil_r. split; assumption.
Qed.

Lemma filter_negb_nil {A} (f : A -> bool) (l : list A) :
  filter (fun x => negb (f x)) l = [] -> filter f l = l.
Proof.
  induction l as [|x l IH]; cbn; [reflexivity|].
  destruct (f x); cbn; [|discriminate].
  intros H. rewrite IH by assumption. reflexivity.
Qed.

(** X3. The flag [NO_BRANCHES_FOUND], read by the verbose report, is
    up exactly when companies-kept is zero; and when no company was
    kept the output is the envelope markers of the input and nothing
    else. *)
Theorem nothing_kept_only_envelope (lines : list string) :
  NO_BRANCHES_FOUND (process_lines T lines)
  = (TOTAL_COMPANIES_RECORDED (process_lines T lines) =? 0)%nat
  /\ (TOTAL_COMPANIES_RECORDED (process_lines T lines) = 0 ->
      branches_file (process_lines T lines) = filter is_envelope lines).
Proof.
  assert (H : NO_BRANCHES_FOUND (process_lines T lines)
              = (TOTAL_COMPANIES_RECORDED (process_lines T lines) =? 0)%nat
              /\ (TOTAL_COMPANIES_RECORDED (process_lines T lines) = 0 ->
                  filter not_envelope (branches_file (process_lines T lines)) = [])).
  { unfold process_lines.
    apply (run_invariant
             (fun s => NO_BRANCHES_FOUND s = (TOTAL_COMPANIES_RECORDED s =? 0)%nat
                       /\ (TOTAL_COMPANIES_RECORDED s = 0 ->
                           filter not_envelope (branches_file s) = []))).
    - intros line s. apply body_nothing_kept.
    - split; reflexivity. }
  destruct H as [Hn Ho]. split; [exact Hn|].
  intros Hz. rewrite <- (filter_negb_nil is_envelope _ (Ho Hz)).
  unfold process_lines. rewrite run_envelope_output; [reflexivity|].
  constructor.
Qed.

(** *** Size of the output *)

Lemma subseq_length {A} (l1 l2 : list A) :
  subseq l1 l2 -> length l1 <= length l2.
Proof. induction 1; cbn; lia. Qed.

(** X4. The loop never writes more lines than it has read: the output
    and the pending buffer together hold at most as many lines as the
    input. *)
Theorem output_no_longer_than_input (lines : list string) :
  length (branches_file (process_lines T lines))
  + length (LINES_LIST (process_lines T lines))
  <= length lines.
Proof.
  set (s := process_lines T lines).
  assert (Hne : length (filter not_envelope (branches_file s ++ LINES_LIST s))
                <= length (filter not_envelope lines)).
  { apply subseq_length. apply (run_order T lines initial []). constructor. }
  assert (Henv : filter is_envelope (branches_file s) = filter is_envelope lines).
  { unfold s, process_lines. rewrite run_envelope_output; [reflexivity|].
    constructor. }
  assert (Hbuf : filter is_envelope (LINES_LIST s) = []).
  { apply filter_none.
    apply (run_invariant buffer_clean); [|constructor].
    intros line s0. apply body_buffer_clean. }
  pose proof (filter_length is_envelope (branches_file s ++ LINES_LIST s)) as H1.
  pose proof (filter_length is_envelope lines) as H2.
  rewrite filter_app, Hbuf, app_nil_r, Henv in H1.
  rewrite length_app in H1. unfold not_envelope in Hne. lia.
Qed.

(** *** Filtering the output again *)

Lemma run_snoc lines line s : run T (lines ++ [line]) s = body T line (run T lines s).
Proof. rewrite run_app. reflexivity. Qed.

Lemma snoc_not_nil {A} (l : list A) (x : A) : l ++ [x] <> [].
Proof. destruct l; discriminate. Qed.

Lemma replayable_initial : replayable T initial.
Proof.
  split; [discriminate|]. split.
  - intros t0 Ht0. cbn. rewrite app_nil_r, Nat.add_0_r. tauto.
  - intros t1 (_ & Hf & Hl). cbn. rewrite Hf, Hl. tauto.
Qed.

Lemma body_replayable line s : replayable T s -> replayable T (body T line s).
Proof.
  intros (Ha & Hb & Hc).
  destruct (body_transition line s) as [He|He Hbs Hct|He Hbs Hct|He Hbs Hcs Hoff
                                        |He Hbs Hcs Hce Hoff|He Hbs Hcs Hce Hoff
                                        |He Hbs Hoff];
    unfold replayable;
    cbn [OFF_COUNTY RECORD_FLAG LINES_LIST branches_file TOTAL_COMPANIES_RECORDED].
  - (* envelope marker *)
    split; [exact Ha|]. split; [|exact Hc].
    intros t0 Ht0. destruct (Hb t0 Ht0) as ((Ho & Hf & Hl) & Hout & Hrec).
    rewrite run_snoc, body_envelope by assumption. unfold idle. cbn.
    rewrite Hout, <- app_assoc. tauto.
  - (* company start, scanned *)
    split; [intros _; apply snoc_not_nil|]. split; [exact Hb|].
    intros t1 Ht1. destruct (Hc t1 Ht1) as (Hout & Hbuf & Hflag & Hrec & _).
    rewrite run_snoc, body_blockstart_scan by assumption. cbn.
    rewrite Hout, Hbuf, Hflag, Hrec. tauto.
  - (* company start, target county *)
    split; [discriminate|]. split; assumption.
  - (* county start *)
    split; [intros _; apply snoc_not_nil|]. split; [exact Hb|].
    intros t1 Ht1. destruct (Hc t1 Ht1) as (Hout & Hbuf & Hflag & Hrec & Hon).
    rewrite run_snoc, body_countystart_scan by auto. cbn.
    rewrite Hout, Hbuf, Hflag, Hrec. tauto.
  - (* county end *)
    split; [discriminate|]. split.
    + intros t0 Ht0. destruct (Hb t0 Ht0) as (Hidle & Hout & Hrec).
      destruct (RECORD_FLAG s) eqn:Hfs.
      * destruct (Hc _ Hidle) as (Hout2 & Hbuf2 & Hflag2 & Hrec2 & Hon).
        rewrite app_assoc, run_snoc, run_app.
        rewrite body_countyend_scan by auto. unfold idle. cbn.
        rewrite Hflag2, ?Hfs, Hbuf2, Hout2, Hout, Hrec2, Hrec.
        rewrite <- !app_assoc, Nat.add_assoc. tauto.
      * rewrite app_nil_r, Nat.add_0_r. tauto.
    + intros t1 (Ho & Hf & Hl). cbn. rewrite Hf, Hl. tauto.
  - (* any other line inside a scanned block *)
    split; [intros _; apply snoc_not_nil|]. split; [exact Hb|].
    intros t1 Ht1. destruct (Hc t1 Ht1) as (Hout & Hbuf & Hflag & Hrec & Hon).
    rewrite run_snoc, body_ordinary_scan by auto. cbn.
    rewrite Hout, Hbuf, Hflag, Hrec. tauto.
  - (* line dropped *)
    split; [exact Ha|]. split; assumption.
Qed.

(** X5. Filtering is idempotent: run on its own output, the loop writes
    that output again, line for line, keeps as many companies as the
    first pass kept, and ends with no block open and the buffer empty. *)
Theorem refiltering_is_identity (lines : list string) :
  branches_file (process_lines T (branches_file (process_lines T lines)))
  = branches_file (process_lines T lines)
  /\ TOTAL_COMPANIES_RECORDED
       (process_lines T (branches_file (process_lines T lines)))
     = TOTAL_COMPANIES_RECORDED (process_lines T lines)
  /\ idle (process_lines T (branches_file (process_lines T lines))).
Proof.
  assert (H : replayable T (process_lines T lines)).
  { unfold process_lines. apply (run_invariant (replayable T)).
    - intros line s. apply body_replayable.
    - apply replayable_initial. }
  destruct H as (_ & Hb & _).
  destruct (Hb initial) as (Hidle & Hout & Hrec).
  { unfold idle. cbn. tauto. }
  change (process_lines T (branches_file (process_lines T lines)))
    with (run T (branches_file (process_lines T lines)) initial).
  rewrite Hout, Hrec. cbn. tauto.
Qed.

(** *** Well-formed files *)

Lemma ordinary_parts line :
  is_ordinary line = true ->
  is_envelope line = false /\ is_blockstart line = false
  /\ is_countystart line = false /\ is_countyend line = false.
Proof.
  unfold is_ordinary. intros H.
  destruct (is_envelope line), (is_blockstart line),
    (is_countystart line), (is_countyend line); cbn in H;
    try discriminate; auto.
Qed.

Lemma forallb_Forall_true {A} (f : A -> bool) (l : list A) :
  forallb f l = true -> Forall (fun x => f x = true) l.
Proof.
  induction l as [|x l IH]; cbn; intros H; constructor;
    apply andb_prop in H; tauto.
Qed.

Lemma ordinary_lines (P : string -> Prop) (l : list string) :
  (forall line, is_ordinary line = true -> P line) ->
  forallb is_ordinary l = true -> Forall P l.
Proof.
  intros HP H. apply forallb_Forall_true in H.
  eapply Forall_impl; [|exact H]. exact HP.
Qed.

(** One well-formed block, read from a state with the flag down and the
    buffer empty. *)
Lemma run_block b s :
  wf_block b = true ->
  RECORD_FLAG s = false ->
  LINES_LIST s = [] ->
  OFF_COUNTY (run T (render b) s) = false
  /\ RECORD_FLAG (run T (render b) s) = false
  /\ LINES_LIST (run T (render b) s) = []
  /\ branches_file (run T (render b) s) = branches_file s ++ emitted T b
  /\ TOTAL_COMPANIES_FOUND (run T (render b) s) = TOTAL_COMPANIES_FOUND s + 1
  /\ TOTAL_COMPANIES_RECORDED (run T (render b) s)
     = TOTAL_COMPANIES_RECORDED s + (if keeps T b then 1 else 0).
Proof.
  destruct b as [bs b1 cs b2 ce tr].
  unfold wf_block, emitted, keeps, render, first_part.
  cbn [bstart body1 cstart body2 cend trailing].
  intros Hwf Hflag Hbuf.
  apply andb_prop in Hwf as [Hwf Wtr]. apply andb_prop in Hwf as [Hwf Wce].
  apply andb_prop in Hwf as [Hwf Wb2]. apply andb_prop in Hwf as [Hwf Wcs].
  apply andb_prop in Hwf as [Wbs Wb1].
  assert (Htr : Forall (fun l => is_blockstart l = false) tr).
  { eapply Forall_impl; [|apply forallb_Forall_true; eassumption].
    cbn. intros l Hl. destruct (is_blockstart l); [discriminate|reflexivity]. }
  assert (Fb1 : Forall (fun l => is_blockstart l = false /\ is_countystart l = false
                                /\ is_countyend l = false) b1).
  { apply ordinary_lines; [|assumption]. intros l Hl.
    apply ordinary_parts in Hl. tauto. }
  assert (Fb2 : Forall (fun l => is_blockstart l = false /\ is_countystart l = false
                                /\ is_countyend l = false) b2).
  { apply ordinary_lines; [|assumption]. intros l Hl.
    apply ordinary_parts in Hl. tauto. }
  assert (Eb1 : Forall (fun l => is_envelope l = false) b1).
  { apply ordinary_lines; [|assumption]. intros l Hl.
    apply ordinary_parts in Hl. tauto. }
  assert (Eb2 : Forall (fun l => is_envelope l = false) b2).
  { apply ordinary_lines; [|assumption]. intros l Hl.
    apply ordinary_parts in Hl. tauto. }
  assert (Nb1 : filter not_envelope b1 = b1).
  { apply filter_all. eapply Forall_impl; [|exact Eb1].
    cbn. unfold not_envelope. intros l ->. reflexivity. }
  assert (Nb2 : filter not_envelope b2 = b2).
  { apply filter_all. eapply Forall_impl; [|exact Eb2].
    cbn. unfold not_envelope. intros l ->. reflexivity. }
  destruct (contains T bs) eqn:Hc.
  - (* a company of the target county *)
    cbn [negb andb app].
    rewrite run_cons, body_blockstart_home by assumption.
    rewrite run_idle; [|reflexivity|].
    + cbn [OFF_COUNTY RECORD_FLAG LINES_LIST branches_file
             TOTAL_COMPANIES_FOUND TOTAL_COMPANIES_RECORDED].
      rewrite !filter_app. cbn [filter].
      rewrite (countystart_not_envelope cs) by assumption.
      rewrite !filter_app. cbn [filter].
      rewrite (countyend_not_envelope ce) by assumption.
      rewrite (filter_none is_envelope b1), (filter_none is_envelope b2)
        by assumption.
      cbn [app]. rewrite Nat.add_0_r. tauto.
    + rewrite !Forall_app. repeat split.
      * eapply Forall_impl; [|exact Fb1]. cbn. tauto.
      * constructor; [apply countystart_not_blockstart; assumption|].
        rewrite Forall_app. split.
        -- eapply Forall_impl; [|exact Fb2]. cbn. tauto.
        -- constructor; [apply countyend_not_blockstart; assumption|constructor].
      * exact Htr.
  - (* a company of another county *)
    cbn [negb andb].
    replace ((bs :: b1 ++ cs :: b2 ++ [ce]) ++ tr)
      with ((bs :: b1 ++ cs :: b2) ++ ce :: tr)
      by (cbn; rewrite <- !app_assoc; cbn; rewrite <- !app_assoc; reflexivity).
    rewrite run_app, run_block_prefix; try assumption.
    2: { eapply Forall_impl; [|exact Fb2]. cbn. tauto. }
    rewrite run_cons, body_countyend_scan by (assumption || reflexivity).
    rewrite run_idle by (assumption || reflexivity).
    rewrite (existsb_none _ b2).
    2: { eapply Forall_impl; [|exact Fb2]. cbn. intros l (_ & -> & _). reflexivity. }
    cbn [OFF_COUNTY RECORD_FLAG LINES_LIST branches_file
           TOTAL_COMPANIES_FOUND TOTAL_COMPANIES_RECORDED].
    rewrite Hflag, Hbuf, Nb1, Nb2.
    rewrite (filter_none is_envelope b1), (filter_none is_envelope b2)
      by assumption.
    cbn [app orb]. rewrite orb_false_r, app_nil_r.
    destruct (contains T cs); cbn [app]; rewrite ?app_nil_r, ?Nat.add_0_r;
      repeat split; try reflexivity.
    repeat (cbn [app]; rewrite <- app_assoc). reflexivity.
Qed.

Lemma run_blocks bs : forall s,
  forallb wf_block bs = true ->
  RECORD_FLAG s = false ->
  LINES_LIST s = [] ->
  RECORD_FLAG (run T (concat (map render bs)) s) = false
  /\ LINES_LIST (run T (concat (map render bs)) s) = []
  /\ branches_file (run T (concat (map render bs)) s)
     = branches_file s ++ concat (map (emitted T) bs)
  /\ TOTAL_COMPANIES_FOUND (run T (concat (map render bs)) s)
     = TOTAL_COMPANIES_FOUND s + length bs
  /\ TOTAL_COMPANIES_RECORDED (run T (concat (map render bs)) s)
     = TOTAL_COMPANIES_RECORDED s + length (filter (keeps T) bs).
Proof.
  induction bs as [|b bs IH]; intros s Hwf Hflag Hbuf.
  - cbn. rewrite app_nil_r, !Nat.add_0_r. tauto.
  - cbn [forallb] in Hwf. apply andb_prop in Hwf as [Hb Hbs].
    cbn [map concat filter]. rewrite run_app.
    destruct (run_block b s Hb Hflag Hbuf) as (_ & Hf1 & Hl1 & Ho1 & Hs1 & Hk1).
    destruct (IH _ Hbs Hf1 Hl1) as (Hf2 & Hl2 & Ho2 & Hs2 & Hk2).
    rewrite Hf2, Hl2, Ho2, Hs2, Hk2, Ho1, Hs1, Hk1.
    destruct (keeps T b); cbn [length]; rewrite <- ?app_assoc;
      repeat split; try reflexivity; lia.
Qed.

(** X6. On a well-formed file (lines before the first company that
    hold no company start, then well-formed company blocks) the output
    is the envelope markers met outside the first parts of the blocks
    and, in input order, the first part of exactly those blocks whose
    start line does not hold the target and whose first county start
    line does; companies-seen is the number of blocks, companies-kept
    the number of blocks written, and nothing stays in the buffer. *)
Theorem well_formed_file (header : list string) (bs : list block) :
  forallb (fun l => negb (is_blockstart l)) header = true ->
  forallb wf_block bs = true ->
  branches_file (process_lines T (header ++ concat (map render bs)))
  = filter is_envelope header ++ concat (map (emitted T) bs)
  /\ TOTAL_COMPANIES_FOUND (process_lines T (header ++ concat (map render bs)))
     = length bs
  /\ TOTAL_COMPANIES_RECORDED (process_lines T (header ++ concat (map render bs)))
     = length (filter (keeps T) bs)
  /\ LINES_LIST (process_lines T (header ++ concat (map render bs))) = [].
Proof.
  intros Hh Hbs. unfold process_lines. rewrite run_app.
  assert (Hhead : Forall (fun l => is_blockstart l = false) header).
  { eapply Forall_impl; [|apply forallb_Forall_true; exact Hh].
    cbn. intros l Hl. destruct (is_blockstart l); [discriminate|reflexivity]. }
  rewrite (run_idle T header initial) by (reflexivity || assumption).
  match goal with |- context [run T _ ?s0] =>
    destruct (run_blocks bs s0 Hbs eq_refl eq_refl) as (_ & Hl & Ho & Hs & Hk)
  end.
  rewrite Hl, Ho, Hs, Hk. cbn. tauto.
Qed.

(** *** Files without a branch in the target county *)

Lemma body_no_match l s :
  is_countystart l && contains T l = false ->
  RECORD_FLAG s = false ->
  RECORD_FLAG (body T l s) = false
  /\ TOTAL_COMPANIES_RECORDED (body T l s) = TOTAL_COMPANIES_RECORDED s
  /\ branches_file (body T l s) = branches_file s ++ filter is_envelope [l].
Proof.
  intros Hl Hf.
  destruct (body_transition l s) as [He|He Hb Hc|He Hb Hc|He Hb Hcs Hoff
                                     |He Hb Hcs Hce Hoff|He Hb Hcs Hce Hoff
                                     |He Hb Hoff];
    cbn [RECORD_FLAG TOTAL_COMPANIES_RECORDED branches_file filter];
    rewrite He, ?Hf, ?app_nil_r, ?Nat.add_0_r;
    repeat split; try reflexivity; try assumption.
  rewrite Hcs in Hl. exact Hl.
Qed.

Lemma run_no_match lines : forall s,
  Forall (fun l => is_countystart l && contains T l = false) lines ->
  RECORD_FLAG s = false ->
  RECORD_FLAG (run T lines s) = false
  /\ TOTAL_COMPANIES_RECORDED (run T lines s) = TOTAL_COMPANIES_RECORDED s
  /\ branches_file (run T lines s) = branches_file s ++ filter is_envelope lines.
Proof.
  induction lines as [|l lines IH]; intros s Hall Hf.
  - cbn. rewrite app_nil_r. tauto.
  - inversion Hall as [|? ? Hl Hrest]; subst. rewrite run_cons.
    destruct (body_no_match l s Hl Hf) as (Hf1 & Hk1 & Ho1).
    destruct (IH _ Hrest Hf1) as (Hf2 & Hk2 & Ho2).
    rewrite Hf2, Hk2, Ho2, Hk1, Ho1, <- app_assoc, <- filter_app.
    repeat split; reflexivity.
Qed.

(** X15. A file in which no county start line holds the target keeps
    no company: companies-kept is zero and the output is the envelope
    markers of the input, whatever else the file holds. *)
Theorem no_target_branch_nothing_kept (lines : list string) :
  Forall (fun l => is_countystart l && contains T l = false) lines ->
  TOTAL_COMPANIES_RECORDED (process_lines T lines) = 0
  /\ branches_file (process_lines T lines) = filter is_envelope lines.
Proof.
  intros Hall. unfold process_lines.
  destruct (run_no_match lines initial Hall eq_refl) as (_ & Hk & Ho).
  rewrite Hk, Ho. split; reflexivity.
Qed.

(** *** Reading more input *)

Lemma body_grows line s :
  (exists written, branches_file (body T line s) = branches_file s ++ written)
  /\ TOTAL_COMPANIES_FOUND s <= TOTAL_COMPANIES_FOUND (body T line s)
  /\ TOTAL_COMPANIES_RECORDED s <= TOTAL_COMPANIES_RECORDED (body T line s).
Proof.
  destruct (body_transition line s);
    cbn [branches_file TOTAL_COMPANIES_FOUND TOTAL_COMPANIES_RECORDED];
    (split; [|lia]).
  - eexists. reflexivity.
  - exists []. rewrite app_nil_r. reflexivity.
  - exists []. rewrite app_nil_r. reflexivity.
  - exists []. rewrite app_nil_r. reflexivity.
  - eexists. reflexivity.
  - exists []. rewrite app_nil_r. reflexivity.
  - exists []. rewrite app_nil_r. reflexivity.
Qed.

Lemma run_grows lines : forall s,
  (exists written, branches_file (run T lines s) = branches_file s ++ written)
  /\ TOTAL_COMPANIES_FOUND s <= TOTAL_COMPANIES_FOUND (run T lines s)
  /\ TOTAL_COMPANIES_RECORDED s <= TOTAL_COMPANIES_RECORDED (run T lines s).
Proof.
  induction lines as [|l lines IH]; intros s.
  - cbn. split; [exists []; rewrite app_nil_r; reflexivity | lia].
  - rewrite run_cons.
    destruct (body_grows l s) as ((w1 & H1) & Hs1 & Hk1).
    destruct (IH (body T l s)) as ((w2 & H2) & Hs2 & Hk2).
    split; [|lia]. exists (w1 ++ w2). rewrite H2, H1, app_assoc. reflexivity.
Qed.

(** X16. The output is append-only: what has been written after a
    prefix of the input is a prefix of what is written after the whole
    input, and the two counters never go down. *)
Theorem output_append_only (pre post : list string) :
  (exists written,
     branches_file (process_lines T (pre ++ post))
     = branches_file (process_lines T pre) ++ written)
  /\ TOTAL_COMPANIES_FOUND (process_lines T pre)
     <= TOTAL_COMPANIES_FOUND (process_lines T (pre ++ post))
  /\ TOTAL_COMPANIES_RECORDED (process_lines T pre)
     <= TOTAL_COMPANIES_RECORDED (process_lines T (pre ++ post)).
Proof. unfold process_lines. rewrite run_app. apply run_grows. Qed.

End Output.

(** ** Command-line options *)

(** The loop over [sys.argv], in closed form. *)
Lemma for_arg_spec argv : forall c found,
  for_arg argv c found =
    if has_arg "-LR" argv then (long_run_config, true)
    else
      ({| VERBOSE_MESSAGING := VERBOSE_MESSAGING c || has_arg "-vm" argv;
          DELETE_EMPTY_BRANCHES_FILES :=
            DELETE_EMPTY_BRANCHES_FILES c || has_arg "-deb" argv;
          DELETE_TMP_FILES_AFTER_PROCESS :=
            DELETE_TMP_FILES_AFTER_PROCESS c || has_arg "-dtmp" argv;
          PRINT_REPORT := PRINT_REPORT c || has_arg "-pr" argv;
          LONG_RUN := LONG_RUN c |},
       found || has_arg "-vm" argv || has_arg "-deb" argv
       || has_arg "-dtmp" argv || has_arg "-pr" argv).
Proof.
  induction argv as [|arg rest IH]; intros c found.
  - destruct c. cbn. rewrite !orb_false_r. reflexivity.
  - cbn [for_arg has_arg existsb]. fold (has_arg "-LR" rest)
      (has_arg "-vm" rest) (has_arg "-deb" rest) (has_arg "-dtmp" rest)
      (has_arg "-pr" rest).
    destruct (String.eqb_spec arg "-vm") as [->|Hvm].
    { rewrite IH. cbn. destruct (has_arg "-LR" rest); [reflexivity|].
      rewrite !orb_true_r. reflexivity. }
    destruct (String.eqb_spec arg "-deb") as [->|Hdeb].
    { rewrite IH. cbn. destruct (has_arg "-LR" rest); [reflexivity|].
      rewrite !orb_true_r. reflexivity. }
    destruct (String.eqb_spec arg "-dtmp") as [->|Hdtmp].
    { rewrite IH. cbn. destruct (has_arg "-LR" rest); [reflexivity|].
      rewrite !orb_true_r. reflexivity. }
    destruct (String.eqb_spec arg "-pr") as [->|Hpr].
    { rewrite IH. cbn. destruct (has_arg "-LR" rest); [reflexivity|].
      rewrite !orb_true_r. reflexivity. }
    destruct (String.eqb_spec arg "-LR") as [->|Hlr].
    { reflexivity. }
    rewrite IH. reflexivity.
Qed.

Lemma load_arguments_spec argv c :
  load_arguments argv c =
    if has_arg "-LR" argv then long_run_config
    else if any_option argv then
      {| VERBOSE_MESSAGING := VERBOSE_MESSAGING c || has_arg "-vm" argv;
         DELETE_EMPTY_BRANCHES_FILES :=
           DELETE_EMPTY_BRANCHES_FILES c || has_arg "-deb" argv;
         DELETE_TMP_FILES_AFTER_PROCESS :=
           DELETE_TMP_FILES_AFTER_PROCESS c || has_arg "-dtmp" argv;
         PRINT_REPORT := PRINT_REPORT c || has_arg "-pr" argv;
         LONG_RUN := LONG_RUN c |}
    else standard_config.
Proof.
  unfold load_arguments, any_option. rewrite for_arg_spec.
  destruct (has_arg "-LR" argv); [reflexivity|]. cbn [orb].
  destruct (has_arg "-vm" argv || has_arg "-deb" argv
            || has_arg "-dtmp" argv || has_arg "-pr" argv); reflexivity.
Qed.

(** X7. [-LR] overrides everything: when it occurs anywhere in
    [sys.argv], the flags come out as long run, report, both deletions
    on and verbose messaging off, whatever the other arguments (a [-vm]
    before it included) and whatever the flags were. *)
Theorem long_run_option_overrides (argv : list string) (c : config) :
  has_arg "-LR" argv = true ->
  load_arguments argv c = long_run_config.
Proof. intros H. rewrite load_arguments_spec, H. reflexivity. Qed.

(** X8. From the module's initial flags, each flag after
    [load_arguments] is a function of which options occur: long run iff
    [-LR]; report and the two deletions iff their own option or [-LR];
    verbose messaging iff [-vm] without [-LR]. *)
Theorem load_arguments_from_standard (argv : list string) :
  load_arguments argv standard_config =
    {| VERBOSE_MESSAGING := has_arg "-vm" argv && negb (has_arg "-LR" argv);
       DELETE_EMPTY_BRANCHES_FILES := has_arg "-deb" argv || has_arg "-LR" argv;
       DELETE_TMP_FILES_AFTER_PROCESS :=
         has_arg "-dtmp" argv || has_arg "-LR" argv;
       PRINT_REPORT := has_arg "-pr" argv || has_arg "-LR" argv;
       LONG_RUN := has_arg "-LR" argv |}.
Proof.
  rewrite load_arguments_spec. unfold any_option.
  destruct (has_arg "-LR" argv).
  - cbn. rewrite !orb_true_r, andb_false_r. reflexivity.
  - destruct (has_arg "-vm" argv), (has_arg "-deb" argv),
      (has_arg "-dtmp" argv), (has_arg "-pr" argv); reflexivity.
Qed.

Lemma has_arg_permutation x argv argv' :
  Permutation argv argv' -> has_arg x argv = has_arg x argv'.
Proof.
  unfold has_arg. induction 1 as [|a l l' _ IH|a b l|l l' l'' _ IH1 _ IH2]; cbn.
  - reflexivity.
  - rewrite IH. reflexivity.
  - rewrite !orb_assoc, (orb_comm (b =? x) (a =? x)). reflexivity.
  - congruence.
Qed.

(** X9. The order of the command-line arguments does not matter: two
    argument lists that are permutations of one another give the same
    flags. *)
Theorem options_order_irrelevant (argv argv' : list string) (c : config) :
  Permutation argv argv' ->
  load_arguments argv c = load_arguments argv' c.
Proof.
  intros Hp. rewrite !load_arguments_spec. unfold any_option.
  rewrite (has_arg_permutation "-LR" _ _ Hp), (has_arg_permutation "-vm" _ _ Hp),
    (has_arg_permutation "-deb" _ _ Hp), (has_arg_permutation "-dtmp" _ _ Hp),
    (has_arg_permutation "-pr" _ _ Hp).
  reflexivity.
Qed.

(** X10. [load_arguments] is idempotent: loading the same arguments
    again leaves the flags as the first call set them. *)
Theorem load_arguments_idempotent (argv : list string) (c : config) :
  load_arguments argv (load_arguments argv c) = load_arguments argv c.
Proof.
  rewrite !load_arguments_spec.
  destruct (has_arg "-LR" argv); [reflexivity|].
  destruct (any_option argv); [|reflexivity].
  cbn. rewrite <- !orb_assoc, !orb_diag. reflexivity.
Qed.

(** ** Long-run mode *)

Section LongRunFacts.

Variable file_id : Type.
Variable world : Type.
Variable attempt : file_id -> world -> world * option string.

Lemma alert_tick_spec g :
  ERRORS_LIST_LONG_RUN (alert_tick g) = ERRORS_LIST_LONG_RUN g
  /\ TOTAL_ERRORS_FOUND_LONG_RUN (alert_tick g) = TOTAL_ERRORS_FOUND_LONG_RUN g
  /\ (LONG_RUN_ALERT_COUNT g < 50 ->
      LONG_RUN_ALERT_COUNT (alert_tick g) < 50
      /\ 50 * alerts_printed (alert_tick g) + LONG_RUN_ALERT_COUNT (alert_tick g)
         = 50 * alerts_printed g + LONG_RUN_ALERT_COUNT g + 1).
Proof.
  unfold alert_tick. cbv zeta.
  destruct (Nat.leb_spec 50 (LONG_RUN_ALERT_COUNT g + 1));
    cbn [LONG_RUN_ALERT_COUNT TOTAL_ERRORS_FOUND_LONG_RUN
         ERRORS_LIST_LONG_RUN alerts_printed];
    (split; [reflexivity|]; split; [reflexivity|]; intros Hlt; lia).
Qed.

(** What a call that returns has done. *)
Lemma long_run_loop_inv fuel : forall id g w g' w',
  long_run_loop file_id world attempt fuel id g w = Some (g', w') ->
  exists errors,
    tries file_id world attempt id w errors w'
    /\ length errors < fuel
    /\ ERRORS_LIST_LONG_RUN g' = ERRORS_LIST_LONG_RUN g ++ errors
    /\ TOTAL_ERRORS_FOUND_LONG_RUN g'
       = TOTAL_ERRORS_FOUND_LONG_RUN g + length errors
    /\ (LONG_RUN_ALERT_COUNT g < 50 ->
        LONG_RUN_ALERT_COUNT g' < 50
        /\ 50 * alerts_printed g' + LONG_RUN_ALERT_COUNT g'
           = 50 * alerts_printed g + LONG_RUN_ALERT_COUNT g + 1 + length errors).
Proof.
  induction fuel as [|fuel IH]; intros id g w g' w' H; [discriminate|].
  cbn [long_run_loop] in H. cbv zeta in H.
  destruct (alert_tick_spec g) as (Tl & Te & Tc).
  destruct (attempt id w) as [w1 [error|]] eqn:Ha.
  - apply IH in H. destruct H as (errors & Ht & Hlen & Hl & He & Hc).
    unfold record_error in Hl, He, Hc.
    cbn [LONG_RUN_ALERT_COUNT TOTAL_ERRORS_FOUND_LONG_RUN
         ERRORS_LIST_LONG_RUN alerts_printed] in Hl, He, Hc.
    exists (error :: errors). split; [econstructor; eassumption|].
    cbn [length]. split; [lia|].
    split; [rewrite Hl, Tl, <- app_assoc; reflexivity|].
    split; [lia|].
    intros Hlt. destruct (Tc Hlt) as [Tc1 Tc2].
    destruct (Hc Tc1) as [Hc1 Hc2]. lia.
  - injection H as <- <-. exists []. split; [constructor; assumption|].
    cbn [length]. split; [lia|].
    split; [rewrite Tl, app_nil_r; reflexivity|].
    split; [lia|].
    intros Hlt. destruct (Tc Hlt) as [Tc1 Tc2]. lia.
Qed.

(** X11. Retry until success.  When the attempts on a file fail some
    number of times and then succeed, [long_run_loop] returns (the
    recursion being allowed that many retries) in the world the
    successful attempt leaves, having appended the messages of the
    failed attempts, in order, to [ERRORS_LIST_LONG_RUN] and added their
    number to [TOTAL_ERRORS_FOUND_LONG_RUN]. *)
Theorem long_run_loop_retries (id : file_id) (w w' : world) (errors : list string) :
  tries file_id world attempt id w errors w' ->
  forall fuel g,
    length errors < fuel ->
    exists g',
      long_run_loop file_id world attempt fuel id g w = Some (g', w')
      /\ ERRORS_LIST_LONG_RUN g' = ERRORS_LIST_LONG_RUN g ++ errors
      /\ TOTAL_ERRORS_FOUND_LONG_RUN g'
         = TOTAL_ERRORS_FOUND_LONG_RUN g + length errors.
Proof.
  induction 1 as [w w' Ha|w w1 error errors w' Ha Ht IH]; intros fuel g Hfuel.
  - destruct fuel as [|fuel]; [cbn in Hfuel; lia|].
    cbn [long_run_loop]. cbv zeta.
    rewrite Ha. eexists. split; [reflexivity|].
    destruct (alert_tick_spec g) as (Tl & Te & _).
    rewrite Tl, Te, app_nil_r. cbn [length]. split; [reflexivity | lia].
  - destruct fuel as [|fuel]; [cbn in Hfuel; lia|].
    cbn [long_run_loop]. cbv zeta. rewrite Ha.
    cbn [length] in Hfuel.
    destruct (IH fuel (record_error error (alert_tick g)))
      as (g' & Hr & Hl & He); [lia|].
    exists g'. split; [exact Hr|].
    destruct (alert_tick_spec g) as (Tl & Te & _).
    unfold record_error in Hl, He.
    cbn [LONG_RUN_ALERT_COUNT TOTAL_ERRORS_FOUND_LONG_RUN
         ERRORS_LIST_LONG_RUN alerts_printed] in Hl, He.
    cbn [length]. split; [rewrite Hl, Tl, <- app_assoc; reflexivity | lia].
Qed.

(** X12. [long_run_loop] never gives a file up: when it returns, the
    last attempt on the file has succeeded, and the messages it has
    added to [ERRORS_LIST_LONG_RUN] are those of the failed attempts
    before it. *)
Theorem long_run_loop_returns_after_success
  (fuel : nat) (id : file_id) (g g' : long_run_state) (w w' : world) :
  long_run_loop file_id world attempt fuel id g w = Some (g', w') ->
  exists errors,
    tries file_id world attempt id w errors w'
    /\ ERRORS_LIST_LONG_RUN g' = ERRORS_LIST_LONG_RUN g ++ errors
    /\ exists w0, attempt id w0 = (w', None).
Proof.
  intros H. apply long_run_loop_inv in H.
  destruct H as (errors & Ht & _ & Hl & _).
  exists errors. split; [exact Ht|]. split; [exact Hl|].
  clear Hl. induction Ht as [w w' Ha|w w1 error errors w' Ha Ht IH].
  - exists w. exact Ha.
  - exact IH.
Qed.

(** X13. Accounts of a whole long run.  If the error counter equals the
    length of the error list and the alert counter is below 50 when the
    run starts (both are so at module load), then when the loop over the
    files returns the error counter still equals the length of the
    error list, the alert counter is still below 50, and fifty times the
    alerts printed plus the alert counter has grown by the number of
    attempts made, one per file plus one per error: the alert is
    printed on every fiftieth attempt. *)
Theorem long_run_all_accounts (fuel : nat) (ids_list : list file_id) :
  forall (g g' : long_run_state) (w w' : world),
  long_run_all file_id world attempt fuel ids_list g w = Some (g', w') ->
  TOTAL_ERRORS_FOUND_LONG_RUN g = length (ERRORS_LIST_LONG_RUN g) ->
  LONG_RUN_ALERT_COUNT g < 50 ->
  TOTAL_ERRORS_FOUND_LONG_RUN g' = length (ERRORS_LIST_LONG_RUN g')
  /\ LONG_RUN_ALERT_COUNT g' < 50
  /\ 50 * alerts_printed g' + LONG_RUN_ALERT_COUNT g'
     + TOTAL_ERRORS_FOUND_LONG_RUN g
     = 50 * alerts_printed g + LONG_RUN_ALERT_COUNT g
       + length ids_list + TOTAL_ERRORS_FOUND_LONG_RUN g'.
Proof.
  induction ids_list as [|id rest IH]; intros g g' w w' H He Hc.
  - cbn in H. injection H as <- <-. cbn. repeat split; (assumption || lia).
  - cbn [long_run_all] in H.
    destruct (long_run_loop file_id world attempt fuel id g w)
      as [[g1 w1]|] eqn:H1; [|discriminate].
    apply long_run_loop_inv in H1.
    destruct H1 as (errors & _ & _ & Hl1 & He1 & Hc1).
    destruct (Hc1 Hc) as [Hlt1 Hsum1].
    destruct (IH _ _ _ _ H) as (He2 & Hlt2 & Hsum2).
    + rewrite He1, Hl1, length_app. lia.
    + exact Hlt1.
    + cbn [length]. repeat split; [exact He2 | exact Hlt2 | lia].
Qed.

End LongRunFacts.

(** ** The name of the output file *)

Lemma has_slash_cons c p :
  has_slash (String c p) = Ascii.eqb c "/" || has_slash p.
Proof. reflexivity. Qed.

Lemma has_slash_app p q : has_slash (p ++ q)%string = has_slash p || has_slash q.
Proof.
  induction p as [|c p IH]; [reflexivity|].
  cbn [append]. rewrite !has_slash_cons, IH, orb_assoc. reflexivity.
Qed.

Lemma basename_no_slash p : has_slash (basename p) = false.
Proof.
  induction p as [|c p IH]; [reflexivity|].
  cbn [basename]. destruct (has_slash p) eqn:Hs; [exact IH|].
  destruct (Ascii.eqb c "/") eqn:Hc; [exact Hs|].
  rewrite has_slash_cons, Hc, Hs. reflexivity.
Qed.

Lemma basename_plain p : has_slash p = false -> basename p = p.
Proof.
  destruct p as [|c p]; [reflexivity|].
  rewrite has_slash_cons. intros H. apply orb_false_elim in H as [Hc Hs].
  cbn [basename]. rewrite Hs, Hc. reflexivity.
Qed.

Lemma basename_app p q : has_slash q = true -> basename (p ++ q)%string = basename q.
Proof.
  intros Hq. induction p as [|c p IH]; [reflexivity|].
  cbn [append basename]. rewrite has_slash_app, Hq, orb_true_r. exact IH.
Qed.

Lemma basename_dir p : has_slash p = false -> basename (String "/" p) = p.
Proof. intros H. cbn [basename]. rewrite H. reflexivity. Qed.

Lemma length_append p q :
  String.length (p ++ q)%string = String.length p + String.length q.
Proof.
  induction p as [|c p IH]; [reflexivity|]. cbn. rewrite IH. reflexivity.
Qed.

(** X14. The output file is never the input file: the name under which
    [branches_file] is opened for writing differs from the name of the
    file being read, whatever that name is.  Its base name, which
    becomes [LAST_FILE_SUCCESSFULLY_PARSED], is the base name of the
    input behind the prefix, so the output sits directly in the
    extraction folder. *)
Theorem branches_file_name_fresh (target_file_name : string) :
  branches_file_name target_file_name <> target_file_name
  /\ basename (branches_file_name target_file_name)
     = (PROCESSED_FILES_PREFIX ++ basename target_file_name)%string
  /\ branches_file_name target_file_name
     = (EXTRACTION_LOCAL ++ basename (branches_file_name target_file_name))%string.
Proof.
  assert (Hb : basename (branches_file_name target_file_name)
               = (PROCESSED_FILES_PREFIX ++ basename target_file_name)%string).
  { unfold branches_file_name, EXTRACTION_LOCAL.
    change ("filiais/" ++ PROCESSED_FILES_PREFIX ++ basename target_file_name)%string
      with ("filiais"
            ++ String "/" (PROCESSED_FILES_PREFIX ++ basename target_file_name))%string.
    assert (Hs : has_slash (PROCESSED_FILES_PREFIX ++ basename target_file_name)%string
                 = false).
    { rewrite has_slash_app, basename_no_slash. reflexivity. }
    rewrite basename_app by reflexivity.
    apply basename_dir. exact Hs. }
  split; [|split; [exact Hb|]].
  - intros Heq. rewrite Heq in Hb. apply (f_equal String.length) in Hb.
    rewrite length_append in Hb. cbn in Hb. lia.
  - rewrite Hb. reflexivity.
Qed.

(** ** Examples *)

Lemma nothing_kept_only_envelope_witness :
  TOTAL_COMPANIES_RECORDED
    (process_lines "|3685|"
       [ln "STARTS"; ln "BLOCKSTARTS|3685|"; ln "COUNTYSTARTS|3685|";
        ln "data-row-A"; ln "COUNTYENDS"; ln "ENDS"]) = 0
  /\ branches_file
       (process_lines "|3685|"
          [ln "STARTS"; ln "BLOCKSTARTS|3685|"; ln "COUNTYSTARTS|3685|";
           ln "data-row-A"; ln "COUNTYENDS"; ln "ENDS"])
     = [ln "STARTS"; ln "ENDS"].
Proof.
  split; [reflexivity|].
  exact (proj2 (nothing_kept_only_envelope "|3685|"
                  [ln "STARTS"; ln "BLOCKSTARTS|3685|"; ln "COUNTYSTARTS|3685|";
                   ln "data-row-A"; ln "COUNTYENDS"; ln "ENDS"]) eq_refl).
Defined.

Lemma well_formed_file_witness :
  (forallb (fun l => negb (is_blockstart l)) [ln "STARTS"] = true
   /\ forallb wf_block [block_kept; block_home; block_other] = true)
  /\ branches_file
       (process_lines "|3685|"
          ([ln "STARTS"]
           ++ concat (map render [block_kept; block_home; block_other])))
     = [ln "STARTS"; ln "BLOCKSTARTS|1111|"; ln "data-row-0";
        ln "COUNTYSTARTS|3685|"; ln "data-row-A"; ln "COUNTYENDS"; ln "ENDS"]
  /\ TOTAL_COMPANIES_FOUND
       (process_lines "|3685|"
          ([ln "STARTS"]
           ++ concat (map render [block_kept; block_home; block_other])))
     = 3
  /\ TOTAL_COMPANIES_RECORDED
       (process_lines "|3685|"
          ([ln "STARTS"]
           ++ concat (map render [block_kept; block_home; block_other])))
     = 1.
Proof.
  split; [split; reflexivity|].
  destruct (well_formed_file "|3685|" [ln "STARTS"]
              [block_kept; block_home; block_other] eq_refl eq_refl)
    as (Hout & Hseen & Hkept & _).
  split; [exact Hout | split; [exact Hseen | exact Hkept]].
Defined.

Lemma no_target_branch_nothing_kept_witness :
  Forall (fun l => is_countystart l && contains "|3685|" l = false)
    [ln "STARTS"; ln "BLOCKSTARTS|1111|"; ln "COUNTYSTARTS|9999|";
     ln "data-row-A"; ln "COUNTYENDS"; ln "ENDS"]
  /\ TOTAL_COMPANIES_RECORDED
       (process_lines "|3685|"
          [ln "STARTS"; ln "BLOCKSTARTS|1111|"; ln "COUNTYSTARTS|9999|";
           ln "data-row-A"; ln "COUNTYENDS"; ln "ENDS"]) = 0
  /\ branches_file
       (process_lines "|3685|"
          [ln "STARTS"; ln "BLOCKSTARTS|1111|"; ln "COUNTYSTARTS|9999|";
           ln "data-row-A"; ln "COUNTYENDS"; ln "ENDS"])
     = [ln "STARTS"; ln "ENDS"].
Proof.
  assert (H : Forall (fun l => is_countystart l && contains "|3685|" l = false)
                [ln "STARTS"; ln "BLOCKSTARTS|1111|"; ln "COUNTYSTARTS|9999|";
                 ln "data-row-A"; ln "COUNTYENDS"; ln "ENDS"])
    by (repeat constructor).
  split; [exact H|].
  exact (no_target_branch_nothing_kept "|3685|" _ H).
Defined.

Lemma long_run_option_overrides_witness :
  has_arg "-LR" ["whitedwarf.py"; "-vm"; "-LR"; "-pr"] = true
  /\ load_arguments ["whitedwarf.py"; "-vm"; "-LR"; "-pr"] standard_config
     = long_run_config.
Proof.
  split; [reflexivity|].
  exact (long_run_option_overrides ["whitedwarf.py"; "-vm"; "-LR"; "-pr"]
           standard_config eq_refl).
Defined.

Lemma options_order_irrelevant_witness :
  Permutation ["whitedwarf.py"; "-vm"; "-pr"] ["whitedwarf.py"; "-pr"; "-vm"]
  /\ load_arguments ["whitedwarf.py"; "-vm"; "-pr"] standard_config
     = load_arguments ["whitedwarf.py"; "-pr"; "-vm"] standard_config.
Proof.
  assert (H : Permutation ["whitedwarf.py"; "-vm"; "-pr"]
                          ["whitedwarf.py"; "-pr"; "-vm"])
    by (apply perm_skip, perm_swap).
  split; [exact H|].
  exact (options_order_irrelevant _ _ standard_config H).
Defined.

Lemma long_run_loop_retries_witness :
  tries nat nat flaky 7 2 ["connection lost"; "connection lost"] 0
  /\ exists g',
       long_run_loop nat nat flaky 3 7 module_long_run 2 = Some (g', 0)
       /\ ERRORS_LIST_LONG_RUN g' = ["connection lost"; "connection lost"]
       /\ TOTAL_ERRORS_FOUND_LONG_RUN g' = 2.
Proof.
  assert (H : tries nat nat flaky 7 2 ["connection lost"; "connection lost"] 0).
  { apply tries_again with (w1 := 1); [reflexivity|].
    apply tries_again with (w1 := 0); [reflexivity|].
    apply tries_done. reflexivity. }
  split; [exact H|].
  apply (long_run_loop_retries nat nat flaky 7 2 0 _ H 3 module_long_run).
  cbn. lia.
Defined.

Lemma long_run_loop_returns_after_success_witness :
  long_run_loop nat nat flaky 3 7 module_long_run 2
  = Some ({| LONG_RUN_ALERT_COUNT := 3;
             TOTAL_ERRORS_FOUND_LONG_RUN := 2;
             ERRORS_LIST_LONG_RUN := ["connection lost"; "connection lost"];
             alerts_printed := 0 |}, 0)
  /\ exists errors,
       tries nat nat flaky 7 2 errors 0
       /\ ["connection lost"; "connection lost"] = [] ++ errors
       /\ exists w0, flaky 7 w0 = (0, None).
Proof.
  split; [reflexivity|].
  exact (long_run_loop_returns_after_success nat nat flaky 3 7 module_long_run
           _ 2 0 eq_refl).
Defined.

Lemma long_run_all_accounts_witness :
  (long_run_all nat nat flaky 3 [7; 8] module_long_run 2
   = Some ({| LONG_RUN_ALERT_COUNT := 4;
              TOTAL_ERRORS_FOUND_LONG_RUN := 2;
              ERRORS_LIST_LONG_RUN := ["connection lost"; "connection lost"];
              alerts_printed := 0 |}, 0)
   /\ TOTAL_ERRORS_FOUND_LONG_RUN module_long_run
      = length (ERRORS_LIST_LONG_RUN module_long_run)
   /\ LONG_RUN_ALERT_COUNT module_long_run < 50)
  /\ 2 = length ["connection lost"; "connection lost"]
  /\ 4 < 50
  /\ 50 * 0 + 4 + 0 = 50 * 0 + 0 + 2 + 2.
Proof.
  split; [split; [reflexivity | split; [reflexivity | cbn; lia]]|].
  exact (long_run_all_accounts nat nat flaky 3 [7; 8] module_long_run
           _ 2 0 eq_refl eq_refl (Nat.lt_0_succ 49)).
Defined.
